(** * Expense tracker: settings reconciliation and batched store writes

  A shallow embedding of three TypeScript sources of the application:

  - [expense-settings.component.ts] (module [Settings]): loading and saving
    the per-user category and source-type lists;
  - the layout component (module [Layout]): hydrating the shared data
    service on sign-in and resetting it on sign-out;
  - the database service (module [Database]): the calls made against the
    Firebase Realtime Database, among them the two multi-path writes and
    the debounced expense stream.

  JavaScript values, promises, the store client and the two RxJS operators
  used by the sources are modelled in the modules [Js], [Firebase] and
  [Rx].  Definitions come first, the theorems about them follow. *)

From stdpp Require Import gmap strings list fin_maps sorting.
From Stdlib Require Import ZArith PrimFloat.

#[local] Set Warnings "-register-all".

Open Scope string_scope.
Open Scope list_scope.

(* ===================================================================== *)
(** ** JavaScript values and the built-ins the sources call               *)
(* ===================================================================== *)

Module Js.

(** What [snapshot.val()] can hold: the JSON-like values of the store plus
    [undefined] for a missing property.  The properties of an object are
    listed in the order in which [Object.values] enumerates them. *)
Inductive value : Type :=
| VUndefined
| VNull
| VBool (b : bool)
| VNumber (x : float)
| VString (s : string)
| VArray (elems : list value)
| VObject (props : list (string * value)).

(** What a [throw] or a rejected promise carries: an [Error] with its
    message, or another value, kept with the text [String(e)] gives it. *)
Inductive thrown : Type :=
| ErrorObject (message : string)
| NonError (rendered : string).

(** Result of evaluating an expression that may throw. *)
Inductive completion (A : Type) : Type :=
| Normal (a : A)
| Throw (e : thrown).
Arguments Normal {A} a.
Arguments Throw {A} e.

Definition bind {A B} (c : completion A) (k : A → completion B) : completion B :=
  match c with
  | Normal a => k a
  | Throw e => Throw e
  end.

(** How a promise settles. *)
Inductive settled (A : Type) : Type :=
| Fulfilled (a : A)
| Rejected (e : thrown).
Arguments Fulfilled {A} a.
Arguments Rejected {A} e.

(** [typeof v] *)
Definition typeof (v : value) : string :=
  match v with
  | VUndefined => "undefined"
  | VNull => "object"
  | VBool _ => "boolean"
  | VNumber _ => "number"
  | VString _ => "string"
  | VArray _ => "object"
  | VObject _ => "object"
  end.

(** ToBoolean, as applied by [&&], [||], [!] and [if]. *)
Definition truthy (v : value) : bool :=
  match v with
  | VUndefined | VNull => false
  | VBool b => b
  | VNumber x => negb (PrimFloat.is_zero x || PrimFloat.is_nan x)
  | VString s => negb (String.eqb s "")
  | VArray _ | VObject _ => true
  end.

(** ToBoolean on a string that may be [undefined]. *)
Definition truthy_str (o : option string) : bool :=
  match o with
  | Some s => negb (String.eqb s "")
  | None => false
  end.

(** [a || b] on strings that may be [undefined]. *)
Definition or_str (a b : option string) : option string :=
  if truthy_str a then a else b.

(** [a ?? b] *)
Definition nullish (a b : value) : value :=
  match a with
  | VUndefined | VNull => b
  | _ => a
  end.

(** [v.name] / [v?.name] for a name that is not an index: own properties of
    a plain object; [undefined] on every other value that has been checked
    not to be [null] or [undefined]. *)
Fixpoint lookup_prop (name : string) (props : list (string * value)) : value :=
  match props with
  | [] => VUndefined
  | (k, v) :: rest => if String.eqb k name then v else lookup_prop name rest
  end.

Definition get (v : value) (name : string) : value :=
  match v with
  | VObject props => lookup_prop name props
  | _ => VUndefined
  end.

Fixpoint chars (s : string) : list value :=
  match s with
  | EmptyString => []
  | String c rest => VString (String c EmptyString) :: chars rest
  end.

(** [Object.values(v)]: a TypeError on [null] and [undefined], the own
    enumerable property values otherwise. *)
Definition Object_values (v : value) : completion (list value) :=
  match v with
  | VUndefined | VNull =>
      Throw (ErrorObject "Cannot convert undefined or null to object")
  | VBool _ | VNumber _ => Normal []
  | VString s => Normal (chars s)
  | VArray elems => Normal elems
  | VObject props => Normal (map snd props)
  end.

(** The type guard [(v): v is string => typeof v === 'string' && v.length > 0]. *)
Definition isNonEmptyString (v : value) : bool :=
  String.eqb (typeof v) "string" &&
  match v with
  | VString s => (0 <? String.length s)%nat
  | _ => false
  end.

(** The narrowing [unknown[] -> string[]] that the type guard licenses: at run
    time the array is unchanged; in the model each element is read back as
    the string it is. *)
Definition asString (v : value) : option string :=
  match v with
  | VString s => Some s
  | _ => None
  end.

Definition narrow (vs : list value) : list string := omap asString vs.

(** lodash [cloneDeep(v)]: a copy equal to its argument. *)
Definition cloneDeep {A} (v : A) : A := v.

(** [e instanceof Error ? e.message : String(e)] *)
Definition messageOf (e : thrown) : string :=
  match e with
  | ErrorObject message => message
  | NonError rendered => rendered
  end.

(** lodash [includes(array, x)] on an array of strings: a left-to-right scan
    with SameValueZero, which on strings is equality of the code units. *)
Fixpoint includes (collection : list string) (x : string) : bool :=
  match collection with
  | [] => false
  | y :: rest => if String.eqb y x then true else includes rest x
  end.

End Js.

(* ===================================================================== *)
(** ** Effects: state threaded through calls that may throw               *)
(* ===================================================================== *)

(** A method body run against a state [S]: it leaves a state behind and
    either returns or throws. *)
Definition eff (S A : Type) : Type := S → S * Js.completion A.

#[global] Instance eff_ret {S} : MRet (eff S) :=
  λ A a s, (s, Js.Normal a).

#[global] Instance eff_bind {S} : MBind (eff S) :=
  λ A B k c s,
    match c s with
    | (s', Js.Normal a) => k a s'
    | (s', Js.Throw e) => (s', Js.Throw e)
    end.

Module Eff.

Definition gets {S A} (f : S → A) : eff S A := λ s, (s, Js.Normal (f s)).

Definition modify {S} (f : S → S) : eff S () := λ s, (f s, Js.Normal ()).

Definition lift {S A} (c : Js.completion A) : eff S A := λ s, (s, c).

(** [promise.then(onFulfilled).catch(onRejected)] at the moment the promise
    settles: a rejection goes to [onRejected], and so does whatever
    [onFulfilled] throws.  Placed after the call that made the promise, it
    gives the run in which nothing else touches the state between the call
    and the settlement; the handlers are also defined on their own, to be
    run from any later state. *)
Definition then_catch {S A} (p : Js.settled A)
    (onFulfilled : A → eff S ()) (onRejected : Js.thrown → eff S ()) : eff S () :=
  match p with
  | Js.Fulfilled a =>
      λ s, match onFulfilled a s with
           | (s', Js.Normal _) => (s', Js.Normal ())
           | (s', Js.Throw e) => onRejected e s'
           end
  | Js.Rejected e => onRejected e
  end.

(** [promise.then(onFulfilled)] with no rejection handler attached. *)
Definition then_ {S A} (p : Js.settled A) (onFulfilled : A → eff S ()) : eff S () :=
  match p with
  | Js.Fulfilled a => onFulfilled a
  | Js.Rejected e => λ s, (s, Js.Throw e)
  end.

(** The state a body leaves behind. *)
Definition exec {S A} (c : eff S A) (s : S) : S := (c s).1.

(** What a body returns or throws. *)
Definition result {S A} (c : eff S A) (s : S) : Js.completion A := (c s).2.

End Eff.

(* ===================================================================== *)
(** ** The application state the three sources act on                     *)
(* ===================================================================== *)

(** [Expense] (interfaces/expense-model): a plain record of user-defined
    fields.  The sources store and move whole records and never look inside. *)
Record Expense : Type := { expenseFields : list (string * Js.value) }.

(** [firebase.User], of which the sources read [uid] only. *)
Record AuthUser : Type := { uid : string }.

(** [UserDetails], built by the layout from two fields of the snapshot. *)
Record UserDetails : Type := { firstName : Js.value; lastName : Js.value }.

(** [ChipOption] *)
Record ChipOption : Type := { value : string; removable : bool }.

(** [snackBar.open(message, action, { duration })] *)
Record Snack : Type := { message : string; action : string; duration : Z }.

Module Firebase.

(** The requests the database service sends to the Realtime Database. *)
Inductive call : Type :=
| Once (path : string)
| SetList (path : string) (items : list string)
| RootUpdate (values : gmap string (option Expense)).

(** The contract of a multi-path [ref().update(values)] on the expense
    records of the tree: a path given [null] is removed, a path given a
    record holds that record afterwards, every other path is left alone, and
    the whole request is applied as one step. *)
Definition apply_update (values : gmap string (option Expense))
    (tree : gmap string Expense) : gmap string Expense :=
  merge (λ upd old,
           match upd with
           | Some (Some e) => Some e
           | Some None => None
           | None => old
           end) values tree.

(** The characters the client refuses in a path: [.], [#], [$], the square
    brackets, and the control characters. *)
Definition invalidPathChar (c : Ascii.ascii) : bool :=
  let n := Ascii.nat_of_ascii c in
  (n <? 32)%nat || (n =? 127)%nat
  || (n =? 46)%nat || (n =? 35)%nat || (n =? 36)%nat
  || (n =? 91)%nat || (n =? 93)%nat.

(** No character of [s] is refused. *)
Fixpoint validChars (s : string) : bool :=
  match s with
  | EmptyString => true
  | String c rest => negb (invalidPathChar c) && validChars rest
  end.

(** The client's test of a path handed to [ref(path)]: a non-empty string
    without a refused character. *)
Definition isValidPathString (path : string) : bool :=
  negb (String.eqb path "") && validChars path.

(** What [ref(path)] throws at a path that fails the test.  The client's
    message quotes the path and lists the refused characters; nothing below
    depends on its wording. *)
Definition invalidPath (path : string) : Js.thrown :=
  Js.ErrorObject ("ref failed: First argument was an invalid path = " +:+ path).

End Firebase.

(** Modelled from the spec: the user service (core/services/user.service), of
    which only the callers are among the sources.  It holds the signed-in
    user, the user id and the profile; each setter replaces the field it
    names and each getter reads it. *)
Record UserService : Type := {
  user : option AuthUser;
  userId : option string;
  userDetails : option UserDetails
}.

(** Modelled from the spec: the expense data service
    (core/services/expense-data.service), of which only the callers are among
    the sources.  It holds the canonical in-memory copies: the expense
    collection, the time-frame filter, the imported-files list and the two
    taxonomy lists; each setter replaces the whole field it names. *)
Record ExpenseDataService : Type := {
  expensesData : list Expense;
  timeFrameFilter : Js.value;
  filesImported : list string;
  categoriesData : list string;
  expenseSourcesData : list string
}.

(** What the database service has done so far: the requests sent, in order,
    the messages published on [categoriesAdded$], and how many push keys
    the client has generated. *)
Record DatabaseService : Type := {
  calls : list Firebase.call;
  categoriesAdded : list string;
  pushed : nat
}.

(** The signals of the settings component. *)
Record SettingsComponent : Type := {
  categoriesSignal : list ChipOption;
  copyCategoriesSignal : list ChipOption;
  sourceTypeSignal : list ChipOption;
  sourceTypeSignalOriginal : list ChipOption;
  isLoadingUserInformation : bool;
  isLoadingUserCategories : bool;
  isUpdatingCategories : bool;
  isUpdatingSourceTypes : bool
}.

Record World : Type := {
  userService : UserService;
  expenseDataService : ExpenseDataService;
  database : DatabaseService;
  snackBar : list Snack;
  settings : SettingsComponent
}.

(** Updating one part of the state, the rest kept. *)
Definition onUserService (f : UserService → UserService) (w : World) : World :=
  {| userService := f w.(userService);
     expenseDataService := w.(expenseDataService);
     database := w.(database);
     snackBar := w.(snackBar);
     settings := w.(settings) |}.

Definition onExpenseDataService (f : ExpenseDataService → ExpenseDataService)
    (w : World) : World :=
  {| userService := w.(userService);
     expenseDataService := f w.(expenseDataService);
     database := w.(database);
     snackBar := w.(snackBar);
     settings := w.(settings) |}.

Definition onDatabase (f : DatabaseService → DatabaseService) (w : World) : World :=
  {| userService := w.(userService);
     expenseDataService := w.(expenseDataService);
     database := f w.(database);
     snackBar := w.(snackBar);
     settings := w.(settings) |}.

Definition onSnackBar (f : list Snack → list Snack) (w : World) : World :=
  {| userService := w.(userService);
     expenseDataService := w.(expenseDataService);
     database := w.(database);
     snackBar := f w.(snackBar);
     settings := w.(settings) |}.

Definition onSettings (f : SettingsComponent → SettingsComponent) (w : World) : World :=
  {| userService := w.(userService);
     expenseDataService := w.(expenseDataService);
     database := w.(database);
     snackBar := w.(snackBar);
     settings := f w.(settings) |}.

(* ===================================================================== *)
(** ** The injected services whose sources are not at hand                *)
(* ===================================================================== *)

Module Users.

(** Modelled from the spec: [UserService.getUser()], the signed-in user or
    [undefined]. *)
Definition getUser : eff World (option AuthUser) :=
  Eff.gets (λ w, w.(userService).(user)).

(** Modelled from the spec: [UserService.getUserId()], the stored user id or
    [undefined]. *)
Definition getUserId : eff World (option string) :=
  Eff.gets (λ w, w.(userService).(userId)).

(** Modelled from the spec: [UserService.setUser(u)] replaces the signed-in
    user. *)
Definition setUser (u : option AuthUser) : eff World () :=
  Eff.modify (onUserService (λ s,
    {| user := u; userId := s.(userId); userDetails := s.(userDetails) |})).

(** Modelled from the spec: [UserService.setUserId(id)] replaces the stored
    user id. *)
Definition setUserId (id : string) : eff World () :=
  Eff.modify (onUserService (λ s,
    {| user := s.(user); userId := Some id; userDetails := s.(userDetails) |})).

(** Modelled from the spec: [UserService.setUserDetails(d)] replaces the
    profile. *)
Definition setUserDetails (d : UserDetails) : eff World () :=
  Eff.modify (onUserService (λ s,
    {| user := s.(user); userId := s.(userId); userDetails := Some d |})).

(** [this.userService.getUser()?.uid || this.userService.getUserId()] *)
Definition currentUid : eff World (option string) :=
  u ← getUser;
  id ← getUserId;
  mret (Js.or_str (uid <$> u) id).

End Users.

Module ExpenseData.

(** Modelled from the spec: [ExpenseDataService.setExpensesData(list)]
    replaces the expense collection. *)
Definition setExpensesData (l : list Expense) : eff World () :=
  Eff.modify (onExpenseDataService (λ s,
    {| expensesData := l;
       timeFrameFilter := s.(timeFrameFilter);
       filesImported := s.(filesImported);
       categoriesData := s.(categoriesData);
       expenseSourcesData := s.(expenseSourcesData) |})).

(** Modelled from the spec: [ExpenseDataService.setTimeFrameFilter(f)]
    replaces the time-frame filter. *)
Definition setTimeFrameFilter (f : Js.value) : eff World () :=
  Eff.modify (onExpenseDataService (λ s,
    {| expensesData := s.(expensesData);
       timeFrameFilter := f;
       filesImported := s.(filesImported);
       categoriesData := s.(categoriesData);
       expenseSourcesData := s.(expenseSourcesData) |})).

(** Modelled from the spec: [ExpenseDataService.setFilesImported(list)]
    replaces the imported-files list. *)
Definition setFilesImported (l : list string) : eff World () :=
  Eff.modify (onExpenseDataService (λ s,
    {| expensesData := s.(expensesData);
       timeFrameFilter := s.(timeFrameFilter);
       filesImported := l;
       categoriesData := s.(categoriesData);
       expenseSourcesData := s.(expenseSourcesData) |})).

(** Modelled from the spec: [ExpenseDataService.setCategoriesSignal(list)]
    replaces the canonical category list. *)
Definition setCategoriesSignal (l : list string) : eff World () :=
  Eff.modify (onExpenseDataService (λ s,
    {| expensesData := s.(expensesData);
       timeFrameFilter := s.(timeFrameFilter);
       filesImported := s.(filesImported);
       categoriesData := l;
       expenseSourcesData := s.(expenseSourcesData) |})).

(** Modelled from the spec: [ExpenseDataService.setExpenseSourcesData(list)]
    replaces the canonical source-type list. *)
Definition setExpenseSourcesData (l : list string) : eff World () :=
  Eff.modify (onExpenseDataService (λ s,
    {| expensesData := s.(expensesData);
       timeFrameFilter := s.(timeFrameFilter);
       filesImported := s.(filesImported);
       categoriesData := s.(categoriesData);
       expenseSourcesData := l |})).

End ExpenseData.

Module SnackBar.

(** [snackBar.open(message, action, { duration })] *)
Definition open (message action : string) (duration : Z) : eff World () :=
  Eff.modify (onSnackBar (λ shown,
    shown ++ [{| message := message; action := action; duration := duration |}])).

End SnackBar.

(* ===================================================================== *)
(** ** The two RxJS operators of the expense stream                       *)
(* ===================================================================== *)

Module Rx.
Section Operators.
Context {A : Type}.

(** A stream observed over a run: each value with the time it is emitted at,
    in order of emission.  The list holds everything the stream emits; it
    stays open and silent afterwards. *)
Definition timed : Type := list (Z * A).

(** Whether the value that arrived at [t] is replaced before its timer, due
    at [t + dueTime], lets it out: the next arrival comes first.  When both
    fall on the same instant the scheduler decides; [timerFirst] tells, for
    that instant, whether the timer ran before the arrival was handled. *)
Definition superseded (timerFirst : Z → bool) (dueTime t next : Z) : bool :=
  (next <? t + dueTime)%Z || ((next =? t + dueTime)%Z && negb (timerFirst next)).

(** [debounceTime(dueTime)]: a value is emitted [dueTime] after it arrived,
    unless another one arrived in between, which restarts the wait. *)
Fixpoint debounceTime (timerFirst : Z → bool) (dueTime : Z) (source : timed) : timed :=
  match source with
  | [] => []
  | (t, v) :: rest =>
      match rest with
      | [] => [((t + dueTime)%Z, v)]
      | (next, _) :: _ =>
          if superseded timerFirst dueTime t next
          then debounceTime timerFirst dueTime rest
          else ((t + dueTime)%Z, v) :: debounceTime timerFirst dueTime rest
      end
  end.

(** [distinctUntilChanged(comparator)] once a first value has gone through:
    [prev] is the last value let through. *)
Fixpoint distinctAfter (comparator : A → A → bool) (prev : A) (source : timed) : timed :=
  match source with
  | [] => []
  | (t, curr) :: rest =>
      if comparator prev curr
      then distinctAfter comparator prev rest
      else (t, curr) :: distinctAfter comparator curr rest
  end.

(** [distinctUntilChanged(comparator)]: the first value always goes through,
    a later one only when the comparator tells it apart from the last value
    that went through. *)
Definition distinctUntilChanged (comparator : A → A → bool) (source : timed) : timed :=
  match source with
  | [] => []
  | (t, first) :: rest => (t, first) :: distinctAfter comparator first rest
  end.

End Operators.
Arguments timed A : clear implicits.
End Rx.

(* ===================================================================== *)
(** ** The database service                                               *)
(* ===================================================================== *)

Module Database.

(** A request handed to the database client. *)
Definition send (c : Firebase.call) : eff World () :=
  Eff.modify (onDatabase (λ d,
    {| calls := d.(calls) ++ [c];
       categoriesAdded := d.(categoriesAdded);
       pushed := d.(pushed) |})).

(** Waiting for a promise inside an [async] body, or returning it from one. *)
Definition await {A} (p : Js.settled A) : eff World A :=
  match p with
  | Js.Fulfilled a => mret a
  | Js.Rejected e => Eff.lift (Js.Throw e)
  end.

(** [announceCategoriesAdded(message)] *)
Definition announceCategoriesAdded (message : string) : eff World () :=
  Eff.modify (onDatabase (λ d,
    {| calls := d.(calls);
       categoriesAdded := d.(categoriesAdded) ++ [message];
       pushed := d.(pushed) |})).

(** [`users/${userId}/expenses`] *)
Definition expensesPath (userId : string) : string :=
  "users/" +:+ userId +:+ "/expenses".

(** [`users/${uid}/expenses/${k}`] *)
Definition expensePath (userId key : string) : string :=
  "users/" +:+ userId +:+ "/expenses/" +:+ key.

(** [this.db.database.ref(path)]: the client validates the path when the
    reference is made and throws, synchronously, at one it refuses.  Nothing
    has been sent at that point. *)
Definition ref (path : string) : eff World () :=
  if Firebase.isValidPathString path then mret ()
  else Eff.lift (Js.Throw (Firebase.invalidPath path)).

(** [saveNewCategories(categories, userId)]: [ref(path).set(categories)].
    The result is that of the synchronous call; the promise it returns is
    settled by the store later. *)
Definition saveNewCategories (categories : list string) (userId : string) : eff World () :=
  let path := "users/" +:+ userId +:+ "/categories" in
  ref path;;
  send (Firebase.SetList path categories).

(** [saveNewImportedFiles(files, userId)] *)
Definition saveNewImportedFiles (files : list string) (userId : string) : eff World () :=
  let path := "users/" +:+ userId +:+ "/filesImported" in
  ref path;;
  send (Firebase.SetList path files).

(** [saveNewExpenseSourceTypes(types, userId)] *)
Definition saveNewExpenseSourceTypes (types : list string) (userId : string) : eff World () :=
  let path := "users/" +:+ userId +:+ "/types" in
  ref path;;
  send (Firebase.SetList path types).

(** [getUserDetailsById(userId)]: [ref(path).once('value')]. *)
Definition getUserDetailsById (userId : string) : eff World () :=
  let path := "users/" +:+ userId in
  ref path;;
  send (Firebase.Once path).

(** The first argument of [batchUpdateExpenses]: a user id in the new style,
    the updates (possibly missing) in the legacy style. *)
Inductive firstArg : Type :=
| AUserId (a : string)
| AUpdates (a : option (gmap string (option Expense))).

(** [Object.keys(o)] *)
Definition Object_keys {V} (o : gmap string V) : list string := (map_to_list o).*1.

(** The body of the loop [for (const k of Object.keys(updates))]. *)
Definition scope (uid : string) (updates : gmap string (option Expense))
    (scoped : gmap string (option Expense)) (k : string) : gmap string (option Expense) :=
  <[expensePath uid k := default None (updates !! k)]> scoped.

(** [batchUpdateExpenses(a, b?)].  [currentUser] is what [afAuth.currentUser]
    resolves to and [written] how the store settles the update. *)
Definition batchUpdateExpenses (currentUser : option AuthUser) (written : Js.settled ())
    (a : firstArg) (b : option (gmap string (option Expense))) : eff World () :=
  '(uid, updates) ←
    match a with
    | AUserId a => mret (a, default ∅ b)
    | AUpdates a =>
        let updates := default ∅ a in
        let user := currentUser in
        if negb (Js.truthy_str (uid <$> user))
        then Eff.lift (Js.Throw (Js.ErrorObject "Not signed in"))
        else mret (default "" (uid <$> user), updates)
    end;
  let scoped := foldl (scope uid updates) ∅ (Object_keys updates) in
  send (Firebase.RootUpdate scoped);;
  await written.

(** [baseRef.push().key]: the client makes up the next key, nothing is sent.
    [pushKey n] is the key of the [n]-th such call. *)
Definition newPushKey (pushKey : nat → option string) : eff World (option string) :=
  n ← Eff.gets (λ w, w.(database).(pushed));
  Eff.modify (onDatabase (λ d,
    {| calls := d.(calls);
       categoriesAdded := d.(categoriesAdded);
       pushed := S d.(pushed) |}));;
  mret (pushKey n).

(** The [expenses.forEach] of [batchPushExpensesWithBatch]. *)
Fixpoint pushEach (pushKey : nat → option string) (userId : string)
    (expenses : list Expense) (updates : gmap string Expense)
    : eff World (gmap string Expense) :=
  match expenses with
  | [] => mret updates
  | expense :: rest =>
      newKey ← newPushKey pushKey;
      pushEach pushKey userId rest
        (if Js.truthy_str newKey
         then <[expensePath userId (default "" newKey) := expense]> updates
         else updates)
  end.

(** [batchPushExpensesWithBatch(expenses, userId)].  [baseRef] is made
    before the loop, so a refused path throws out of the call before any
    key is generated; the root reference [ref()] of the write has no path
    to validate. *)
Definition batchPushExpensesWithBatch (pushKey : nat → option string)
    (written : Js.settled ()) (expenses : list Expense) (userId : string) : eff World () :=
  ref (expensesPath userId);;
  updates ← pushEach pushKey userId expenses ∅;
  send (Firebase.RootUpdate (Some <$> updates));;
  await written.

Section ExpenseStream.
Context {SnapshotActions : Type}.
(** [JSON.stringify] on the emitted arrays of snapshot actions. *)
Context (JSON_stringify : SnapshotActions → string).
(** [db.list(path).snapshotChanges()], the stream the client delivers. *)
Context (snapshotChanges : string → Rx.timed SnapshotActions).
(** How the scheduler orders a timer and an arrival due at the same instant. *)
Context (timerFirst : Z → bool).

(** [getUserExpenses(userId)] *)
Definition getUserExpenses (userId : string) : Rx.timed SnapshotActions :=
  Rx.distinctUntilChanged
    (λ prev curr, String.eqb (JSON_stringify prev) (JSON_stringify curr))
    (Rx.debounceTime timerFirst 500 (snapshotChanges (expensesPath userId))).

End ExpenseStream.

End Database.

(* ===================================================================== *)
(** ** expense-settings.component.ts                                      *)
(* ===================================================================== *)

Module Settings.
Section Component.
(** [defaultExpenseCategories] and [defaultExpenseTypes] of
    shared/constants/expense-constants, the configured default lists. *)
Context (defaultExpenseCategories defaultExpenseTypes : list string).

(** The component as constructed: empty signals, no operation in progress. *)
Definition initial : SettingsComponent :=
  {| categoriesSignal := [];
     copyCategoriesSignal := [];
     sourceTypeSignal := [];
     sourceTypeSignalOriginal := [];
     isLoadingUserInformation := false;
     isLoadingUserCategories := false;
     isUpdatingCategories := false;
     isUpdatingSourceTypes := false |}.

(** [this.categoriesSignal.set(v)] *)
Definition categoriesSignal_set (v : list ChipOption) : eff World () :=
  Eff.modify (onSettings (λ c,
    {| categoriesSignal := v;
       copyCategoriesSignal := c.(copyCategoriesSignal);
       sourceTypeSignal := c.(sourceTypeSignal);
       sourceTypeSignalOriginal := c.(sourceTypeSignalOriginal);
       isLoadingUserInformation := c.(isLoadingUserInformation);
       isLoadingUserCategories := c.(isLoadingUserCategories);
       isUpdatingCategories := c.(isUpdatingCategories);
       isUpdatingSourceTypes := c.(isUpdatingSourceTypes) |})).

(** [this.copyCategoriesSignal.set(v)] *)
Definition copyCategoriesSignal_set (v : list ChipOption) : eff World () :=
  Eff.modify (onSettings (λ c,
    {| categoriesSignal := c.(categoriesSignal);
       copyCategoriesSignal := v;
       sourceTypeSignal := c.(sourceTypeSignal);
       sourceTypeSignalOriginal := c.(sourceTypeSignalOriginal);
       isLoadingUserInformation := c.(isLoadingUserInformation);
       isLoadingUserCategories := c.(isLoadingUserCategories);
       isUpdatingCategories := c.(isUpdatingCategories);
       isUpdatingSourceTypes := c.(isUpdatingSourceTypes) |})).

(** [this.sourceTypeSignal.set(v)] *)
Definition sourceTypeSignal_set (v : list ChipOption) : eff World () :=
  Eff.modify (onSettings (λ c,
    {| categoriesSignal := c.(categoriesSignal);
       copyCategoriesSignal := c.(copyCategoriesSignal);
       sourceTypeSignal := v;
       sourceTypeSignalOriginal := c.(sourceTypeSignalOriginal);
       isLoadingUserInformation := c.(isLoadingUserInformation);
       isLoadingUserCategories := c.(isLoadingUserCategories);
       isUpdatingCategories := c.(isUpdatingCategories);
       isUpdatingSourceTypes := c.(isUpdatingSourceTypes) |})).

(** [this.sourceTypeSignalOriginal.set(v)] *)
Definition sourceTypeSignalOriginal_set (v : list ChipOption) : eff World () :=
  Eff.modify (onSettings (λ c,
    {| categoriesSignal := c.(categoriesSignal);
       copyCategoriesSignal := c.(copyCategoriesSignal);
       sourceTypeSignal := c.(sourceTypeSignal);
       sourceTypeSignalOriginal := v;
       isLoadingUserInformation := c.(isLoadingUserInformation);
       isLoadingUserCategories := c.(isLoadingUserCategories);
       isUpdatingCategories := c.(isUpdatingCategories);
       isUpdatingSourceTypes := c.(isUpdatingSourceTypes) |})).

(** [this.isLoadingUserInformation.set(b)] *)
Definition isLoadingUserInformation_set (b : bool) : eff World () :=
  Eff.modify (onSettings (λ c,
    {| categoriesSignal := c.(categoriesSignal);
       copyCategoriesSignal := c.(copyCategoriesSignal);
       sourceTypeSignal := c.(sourceTypeSignal);
       sourceTypeSignalOriginal := c.(sourceTypeSignalOriginal);
       isLoadingUserInformation := b;
       isLoadingUserCategories := c.(isLoadingUserCategories);
       isUpdatingCategories := c.(isUpdatingCategories);
       isUpdatingSourceTypes := c.(isUpdatingSourceTypes) |})).

(** [this.isLoadingUserCategories.set(b)] *)
Definition isLoadingUserCategories_set (b : bool) : eff World () :=
  Eff.modify (onSettings (λ c,
    {| categoriesSignal := c.(categoriesSignal);
       copyCategoriesSignal := c.(copyCategoriesSignal);
       sourceTypeSignal := c.(sourceTypeSignal);
       sourceTypeSignalOriginal := c.(sourceTypeSignalOriginal);
       isLoadingUserInformation := c.(isLoadingUserInformation);
       isLoadingUserCategories := b;
       isUpdatingCategories := c.(isUpdatingCategories);
       isUpdatingSourceTypes := c.(isUpdatingSourceTypes) |})).

(** [this.isUpdatingCategories.set(b)] *)
Definition isUpdatingCategories_set (b : bool) : eff World () :=
  Eff.modify (onSettings (λ c,
    {| categoriesSignal := c.(categoriesSignal);
       copyCategoriesSignal := c.(copyCategoriesSignal);
       sourceTypeSignal := c.(sourceTypeSignal);
       sourceTypeSignalOriginal := c.(sourceTypeSignalOriginal);
       isLoadingUserInformation := c.(isLoadingUserInformation);
       isLoadingUserCategories := c.(isLoadingUserCategories);
       isUpdatingCategories := b;
       isUpdatingSourceTypes := c.(isUpdatingSourceTypes) |})).

(** [this.isUpdatingSourceTypes.set(b)] *)
Definition isUpdatingSourceTypes_set (b : bool) : eff World () :=
  Eff.modify (onSettings (λ c,
    {| categoriesSignal := c.(categoriesSignal);
       copyCategoriesSignal := c.(copyCategoriesSignal);
       sourceTypeSignal := c.(sourceTypeSignal);
       sourceTypeSignalOriginal := c.(sourceTypeSignalOriginal);
       isLoadingUserInformation := c.(isLoadingUserInformation);
       isLoadingUserCategories := c.(isLoadingUserCategories);
       isUpdatingCategories := c.(isUpdatingCategories);
       isUpdatingSourceTypes := b |})).

(** [openSnackBar(message)] *)
Definition openSnackBar (message : string) : eff World () :=
  SnackBar.open message "" 2000.

(** [onUpdateToCategories()] *)
Definition onUpdateToCategories : eff World () :=
  Database.announceCategoriesAdded "Categories Added".

(** [normalizeStringList(value: unknown): string[]] *)
Definition normalizeStringList (value : Js.value) : Js.completion (list string) :=
  match value with
  | Js.VArray elems =>
      Js.Normal (Js.narrow (List.filter Js.isNonEmptyString elems))
  | _ =>
      if Js.truthy value && String.eqb (Js.typeof value) "object" then
        Js.bind (Js.Object_values value) (λ vs,
          Js.Normal (Js.narrow (List.filter Js.isNonEmptyString vs)))
      else Js.Normal []
  end.

(** The entry built for one category by [setCategoriesOptions]. *)
Definition categoryOption (category : string) : ChipOption :=
  {| value := category;
     removable := negb (Js.includes defaultExpenseCategories category) |}.

(** The entry built for one source type by [setSourceTypeOptions]. *)
Definition sourceTypeOption (type : string) : ChipOption :=
  {| value := type;
     removable := negb (Js.includes defaultExpenseTypes type) |}.

(** [setCategoriesOptions(categoriesArr)] *)
Definition setCategoriesOptions (categoriesArr : list string) : eff World () :=
  let categories := map categoryOption categoriesArr in
  categoriesSignal_set categories;;
  copyCategoriesSignal_set categories;;
  ExpenseData.setCategoriesSignal categoriesArr;;
  onUpdateToCategories.

(** [setSourceTypeOptions(sourceTypes)] *)
Definition setSourceTypeOptions (sourceTypes : list string) : eff World () :=
  let expenseSourceTypes := map sourceTypeOption sourceTypes in
  sourceTypeSignal_set expenseSourceTypes;;
  sourceTypeSignalOriginal_set expenseSourceTypes.

(** The [.then] handler of [saveCategories]. *)
Definition saveCategories_then : eff World () :=
  current ← Eff.gets (λ w, w.(settings).(categoriesSignal));
  ExpenseData.setCategoriesSignal (map value current);;
  current ← Eff.gets (λ w, w.(settings).(categoriesSignal));
  copyCategoriesSignal_set (Js.cloneDeep current);;
  openSnackBar "Categories saved!";;
  onUpdateToCategories;;
  isUpdatingCategories_set false.

(** The [.catch] handler of [saveCategories]. *)
Definition saveCategories_catch (e : Js.thrown) : eff World () :=
  let msg := Js.messageOf e in
  openSnackBar msg;;
  isUpdatingCategories_set false.

(** [saveCategories()], with [saved] the way the store settles the write. *)
Definition saveCategories (saved : Js.settled ()) : eff World () :=
  isUpdatingCategories_set true;;
  uid ← Users.currentUid;
  if negb (Js.truthy_str uid) then
    openSnackBar "No user id found.";;
    isUpdatingCategories_set false
  else
    current ← Eff.gets (λ w, w.(settings).(categoriesSignal));
    Database.saveNewCategories (map value current) (default "" uid);;
    Eff.then_catch saved (λ _, saveCategories_then) saveCategories_catch.

(** The [.then] handler of [saveTypes]. *)
Definition saveTypes_then : eff World () :=
  current ← Eff.gets (λ w, w.(settings).(sourceTypeSignal));
  sourceTypeSignalOriginal_set (Js.cloneDeep current);;
  current ← Eff.gets (λ w, w.(settings).(sourceTypeSignal));
  ExpenseData.setExpenseSourcesData (map value current);;
  openSnackBar "Expense Source Types saved!";;
  isUpdatingSourceTypes_set false.

(** The [.catch] handler of [saveTypes]. *)
Definition saveTypes_catch (e : Js.thrown) : eff World () :=
  let msg := Js.messageOf e in
  openSnackBar msg;;
  isUpdatingSourceTypes_set false.

(** [saveTypes()], with [saved] the way the store settles the write. *)
Definition saveTypes (saved : Js.settled ()) : eff World () :=
  isUpdatingSourceTypes_set true;;
  uid ← Users.currentUid;
  if negb (Js.truthy_str uid) then
    openSnackBar "No user id found.";;
    isUpdatingSourceTypes_set false
  else
    current ← Eff.gets (λ w, w.(settings).(sourceTypeSignal));
    Database.saveNewExpenseSourceTypes (map value current) (default "" uid);;
    Eff.then_catch saved (λ _, saveTypes_then) saveTypes_catch.

(** The [.then] handler of [getAllUserDetails]; [snapshot] is
    [snapshot.val()]. *)
Definition getAllUserDetails_then (uid : string) (snapshot : Js.value) : eff World () :=
  let data := Js.nullish snapshot (Js.VObject []) in
  Users.setUserId uid;;
  categoriesList ← Eff.lift (normalizeStringList (Js.get data "categories"));
  sourceTypesList ← Eff.lift (normalizeStringList (Js.get data "types"));
  setCategoriesOptions
    (if (0 <? length categoriesList)%nat then categoriesList
     else defaultExpenseCategories);;
  setSourceTypeOptions
    (if (0 <? length sourceTypesList)%nat then sourceTypesList
     else defaultExpenseTypes);;
  isLoadingUserInformation_set false;;
  isLoadingUserCategories_set false.

(** The [.catch] handler of [getAllUserDetails]. *)
Definition getAllUserDetails_catch (e : Js.thrown) : eff World () :=
  isLoadingUserInformation_set false;;
  isLoadingUserCategories_set false;;
  let msg := Js.messageOf e in
  openSnackBar ("Error! " +:+ msg +:+ ".").

(** [getAllUserDetails()], with [loaded] the way the store settles the read. *)
Definition getAllUserDetails (loaded : Js.settled Js.value) : eff World () :=
  uid ← Users.currentUid;
  if negb (Js.truthy_str uid) then mret ()
  else
    isLoadingUserInformation_set true;;
    isLoadingUserCategories_set true;;
    Database.getUserDetailsById (default "" uid);;
    Eff.then_catch loaded
      (getAllUserDetails_then (default "" uid)) getAllUserDetails_catch.

End Component.
End Settings.

(* ===================================================================== *)
(** ** Layout component                                                   *)
(* ===================================================================== *)

Module Layout.
Section Component.
Context (defaultExpenseCategories defaultExpenseTypes : list string).

(** [normalizeStringList(value: unknown): string[]], the layout's copy. *)
Definition normalizeStringList (value : Js.value) : Js.completion (list string) :=
  match value with
  | Js.VArray elems =>
      Js.Normal (Js.narrow (List.filter Js.isNonEmptyString elems))
  | _ =>
      if Js.truthy value && String.eqb (Js.typeof value) "object" then
        Js.bind (Js.Object_values value) (λ vs,
          Js.Normal (Js.narrow (List.filter Js.isNonEmptyString vs)))
      else Js.Normal []
  end.

(** The [.then] handler of [logout]. *)
Definition logout_then : eff World () :=
  Users.setUser None;;
  ExpenseData.setExpensesData [];;
  ExpenseData.setTimeFrameFilter Js.VUndefined;;
  ExpenseData.setFilesImported [];;
  ExpenseData.setCategoriesSignal defaultExpenseCategories;;
  ExpenseData.setExpenseSourcesData defaultExpenseTypes.

(** [logout()], with [signedOut] the way [authService.signOut()] settles. *)
Definition logout (signedOut : Js.settled ()) : eff World () :=
  Eff.then_ signedOut (λ _, logout_then).

(** The [.then] handler of [getAllUserDetails]; [snapshot] is
    [snapshot.val()]. *)
Definition getAllUserDetails_then (uid : string) (snapshot : Js.value) : eff World () :=
  let data := Js.nullish snapshot (Js.VObject []) in
  Users.setUserId uid;;
  Users.setUserDetails
    {| firstName := Js.nullish (Js.get data "firstName") (Js.VString "");
       lastName := Js.nullish (Js.get data "lastName") (Js.VString "") |};;
  categoriesList ← Eff.lift (normalizeStringList (Js.get data "categories"));
  sourceTypesList ← Eff.lift (normalizeStringList (Js.get data "types"));
  filesImported ← Eff.lift (normalizeStringList (Js.get data "filesImported"));
  ExpenseData.setCategoriesSignal
    (if (0 <? length categoriesList)%nat then categoriesList
     else defaultExpenseCategories);;
  ExpenseData.setExpenseSourcesData
    (if (0 <? length sourceTypesList)%nat then sourceTypesList
     else defaultExpenseTypes);;
  ExpenseData.setFilesImported filesImported.

(** The [.catch] handler of [getAllUserDetails]. *)
Definition getAllUserDetails_catch (e : Js.thrown) : eff World () :=
  let msg := Js.messageOf e in
  SnackBar.open ("Failed to load user details: " +:+ msg) "" 2500.

(** [getAllUserDetails()], with [loaded] the way the store settles the read. *)
Definition getAllUserDetails (loaded : Js.settled Js.value) : eff World () :=
  uid ← Users.currentUid;
  if negb (Js.truthy_str uid) then mret ()
  else
    Database.getUserDetailsById (default "" uid);;
    Eff.then_catch loaded
      (getAllUserDetails_then (default "" uid)) getAllUserDetails_catch.

End Component.
End Layout.

(* ===================================================================== *)
(** ** Specification-side definitions                                     *)
(* ===================================================================== *)

(** The filter of the specification's ListNormalizer, in its words: keep the
    elements that are non-empty strings, in order, and drop the rest. *)
Fixpoint keepNonEmptyStrings (raw : list Js.value) : list string :=
  match raw with
  | [] => []
  | Js.VString s :: rest =>
      if decide (s = "") then keepNonEmptyStrings rest
      else s :: keepNonEmptyStrings rest
  | _ :: rest => keepNonEmptyStrings rest
  end.

(** The specification's [normalize]: an ordered sequence is filtered, a keyed
    mapping gives its values in iteration order to the same filter, every
    other shape gives the empty sequence. *)
Definition normalize (raw : Js.value) : list string :=
  match raw with
  | Js.VArray elems => keepNonEmptyStrings elems
  | Js.VObject props => keepNonEmptyStrings (map snd props)
  | _ => []
  end.

(** The component resolves the user id [id] in [w], and a request for that
    user can be made: [id] is not empty and holds no character the store
    refuses in a path. *)
Definition signedInAs (w : World) (id : string) : Prop :=
  Eff.result Users.currentUid w = Js.Normal (Some id) ∧ id ≠ ""
  ∧ Firebase.validChars id = true.

(** The component resolves the non-empty user id [id] in [w], and [id] holds
    a character the store refuses in a path. *)
Definition refusedAs (w : World) (id : string) : Prop :=
  Eff.result Users.currentUid w = Js.Normal (Some id) ∧ id ≠ ""
  ∧ Firebase.validChars id = false.

(** The component resolves no user id in [w]: it is absent or empty. *)
Definition noUserId (w : World) : Prop :=
  Eff.result Users.currentUid w = Js.Normal None
  ∨ Eff.result Users.currentUid w = Js.Normal (Some "").

(** A state to run the operations from: user [u1] is signed in, has edited
    the working copy of the categories and has not saved it yet. *)
Definition sampleWorld : World :=
  {| userService :=
       {| user := Some {| uid := "u1" |}; userId := None; userDetails := None |};
     expenseDataService :=
       {| expensesData := [ {| expenseFields := [("amount", Js.VNumber 12%float)] |} ];
          timeFrameFilter := Js.VString "month";
          filesImported := ["march.csv"];
          categoriesData := ["Food"; "Pets"];
          expenseSourcesData := ["Cash"] |};
     database := {| calls := []; categoriesAdded := []; pushed := 0 |};
     snackBar := [];
     settings :=
       {| categoriesSignal :=
            [ {| value := "Food"; removable := false |};
              {| value := "Pets"; removable := true |};
              {| value := "Books"; removable := true |} ];
          copyCategoriesSignal :=
            [ {| value := "Food"; removable := false |};
              {| value := "Pets"; removable := true |} ];
          sourceTypeSignal := [ {| value := "Cash"; removable := false |} ];
          sourceTypeSignalOriginal := [ {| value := "Cash"; removable := false |} ];
          isLoadingUserInformation := false;
          isLoadingUserCategories := false;
          isUpdatingCategories := false;
          isUpdatingSourceTypes := false |} |}.


(** The object [updates] that the loop of [batchPushExpensesWithBatch] has
    built from [acc] once it has gone through [expenses], the first key
    being the [n]-th. *)
Fixpoint pushedUpdates (pushKey : nat → option string) (userId : string) (n : nat)
    (expenses : list Expense) (acc : gmap string Expense) : gmap string Expense :=
  match expenses with
  | [] => acc
  | expense :: rest =>
      pushedUpdates pushKey userId (S n) rest
        (if Js.truthy_str (pushKey n)
         then <[Database.expensePath userId (default "" (pushKey n)) := expense]> acc
         else acc)
  end.

(** The state after [k] more push keys have been generated. *)
Definition bumpPushed (k : nat) (w : World) : World :=
  onDatabase (λ d,
    {| calls := d.(calls);
       categoriesAdded := d.(categoriesAdded);
       pushed := k + d.(pushed) |}) w.

(** What an [async] body that returns the promise [p] resolves to. *)
Definition settles (p : Js.settled ()) : Js.completion () :=
  match p with
  | Js.Fulfilled a => Js.Normal a
  | Js.Rejected e => Js.Throw e
  end.

(** [scoped] holds the entries of [updates], one for one, each under the
    path [users/{uid}/expenses/{key}] of its key, and nothing else. *)
Definition scopedAs (uid : string) (updates scoped : gmap string (option Expense)) : Prop :=
  (∀ k, scoped !! Database.expensePath uid k = updates !! k)
  ∧ (∀ p, is_Some (scoped !! p) →
          ∃ k, p = Database.expensePath uid k ∧ is_Some (updates !! k))
  ∧ size scoped = size updates.

(** Two edits to apply at once: replace the record under [k1], delete the
    one under [k2]. *)
Definition sampleUpdates : gmap string (option Expense) :=
  {[ "k1" := Some {| expenseFields := [("amount", Js.VNumber 7%float)] |};
     "k2" := None ]}.

(** A value that arrived at [t] leaves the debounce at [t + dueTime]. *)
Definition delayed {A} (dueTime : Z) (arrival : Z * A) : Z * A :=
  ((arrival.1 + dueTime)%Z, arrival.2).


(** Two emissions that [serialize] tells apart. *)
Definition differ {A} (serialize : A → string) (a b : Z * A) : Prop :=
  serialize a.2 ≠ serialize b.2.




(** An expense stream for the examples: a burst of three changes, the last
    two alike, a late change that repeats the state already delivered, and
    a later one that brings a new state. *)
Definition sampleChanges (path : string) : Rx.timed string :=
  [(0, "[]"); (100, "[a]"); (250, "[a]"); (900, "[a]"); (1500, "[a,b]")]%Z.

(** The same state with nobody signed in and no user id stored. *)
Definition signedOutWorld : World :=
  onUserService (λ _, {| user := None; userId := None; userDetails := None |})
    sampleWorld.

(** The same state with a user signed in whose id holds a dot. *)
Definition dottedWorld : World :=
  onUserService
    (λ _, {| user := Some {| uid := "a.b" |}; userId := None; userDetails := None |})
    sampleWorld.

(* ===================================================================== *)
(** ** A save taken apart: the call and the settlement                    *)
(* ===================================================================== *)

Module InFlight.

(** What [saveCategories()] does before it returns: it raises the flag and
    either gives up for want of a user id or hands the working copy to the
    store.  The result tells whether a write is now pending. *)
Definition saveCategories_call : eff World bool :=
  Settings.isUpdatingCategories_set true;;
  uid ← Users.currentUid;
  if negb (Js.truthy_str uid) then
    Settings.openSnackBar "No user id found.";;
    Settings.isUpdatingCategories_set false;;
    mret false
  else
    current ← Eff.gets (λ w, w.(settings).(categoriesSignal));
    Database.saveNewCategories (map value current) (default "" uid);;
    mret true.

(** What runs when the promise of the pending write settles. *)
Definition saveCategories_settle (saved : Js.settled ()) : eff World () :=
  Eff.then_catch saved (λ _, Settings.saveCategories_then) Settings.saveCategories_catch.

(** The user edits the working copy of the categories (the options
    component writes the signal). *)
Definition edit (edited : list ChipOption) : eff World () :=
  Settings.categoriesSignal_set edited.

End InFlight.

(* ===================================================================== *)
(** ** Further specification-side definitions                             *)
(* ===================================================================== *)

(** The list a load goes on with, [list.length ? list : [...defaults]]. *)
Definition orDefaults (defaults l : list string) : list string :=
  if (0 <? length l)%nat then l else defaults.

(** The strings of [l] that are not empty, in order. *)
Definition nonEmptyOnes (l : list string) : list string :=
  List.filter (λ s, negb (String.eqb s "")) l.

(** How the store hands back a list of strings written with [set]. *)
Definition stored (l : list string) : Js.value := Js.VArray (Js.VString <$> l).

(** What a read finds at a path after [set(l)] there: the store keeps no
    empty list, so nothing is found for one. *)
Definition readBack (l : list string) : Js.value :=
  match l with
  | [] => Js.VUndefined
  | _ => stored l
  end.

(** The character [/], which separates the segments of a path. *)
Definition slash : Ascii.ascii := Ascii.ascii_of_nat 47.

(** [s] is a single path segment: it holds no [/]. *)
Fixpoint segment (s : string) : bool :=
  match s with
  | EmptyString => true
  | String c rest => negb (Ascii.eqb c slash) && segment rest
  end.

(** The last value of a stream, or [fallback] when it is empty. *)
Definition lastValue {A} (fallback : A) (source : Rx.timed A) : A :=
  (List.last source (0%Z, fallback)).2.

(** Consecutive arrivals are more than [dueTime] apart. *)
Fixpoint slow {A} (dueTime : Z) (source : Rx.timed A) : Prop :=
  match source with
  | [] => True
  | (t, _) :: rest =>
      match rest with
      | [] => True
      | (next, _) :: _ => (t + dueTime < next)%Z ∧ slow dueTime rest
      end
  end.

(** Consecutive arrivals are less than [dueTime] apart. *)
Fixpoint burst {A} (dueTime : Z) (source : Rx.timed A) : Prop :=
  match source with
  | [] => True
  | (t, _) :: rest =>
      match rest with
      | [] => True
      | (next, _) :: _ => (next < t + dueTime)%Z ∧ burst dueTime rest
      end
  end.

(* ===================================================================== *)
(** ** Theorems                                                           *)
(* ===================================================================== *)

Create HintDb effdb.

#[local] Hint Unfold
  Settings.saveCategories Settings.saveCategories_then Settings.saveCategories_catch
  Settings.saveTypes Settings.saveTypes_then Settings.saveTypes_catch
  Settings.getAllUserDetails Settings.getAllUserDetails_then
  Settings.getAllUserDetails_catch
  Settings.setCategoriesOptions Settings.setSourceTypeOptions
  Settings.openSnackBar Settings.onUpdateToCategories
  Settings.categoriesSignal_set Settings.copyCategoriesSignal_set
  Settings.sourceTypeSignal_set Settings.sourceTypeSignalOriginal_set
  Settings.isLoadingUserInformation_set Settings.isLoadingUserCategories_set
  Settings.isUpdatingCategories_set Settings.isUpdatingSourceTypes_set
  Layout.logout Layout.logout_then Layout.getAllUserDetails
  Layout.getAllUserDetails_then Layout.getAllUserDetails_catch
  Users.currentUid Users.getUser Users.getUserId Users.setUser Users.setUserId
  Users.setUserDetails
  ExpenseData.setExpensesData ExpenseData.setTimeFrameFilter
  ExpenseData.setFilesImported ExpenseData.setCategoriesSignal
  ExpenseData.setExpenseSourcesData
  SnackBar.open Database.send Database.await Database.announceCategoriesAdded
  Database.newPushKey
  Eff.exec Eff.result Eff.gets Eff.modify Eff.lift Eff.then_catch Eff.then_
  mbind mret eff_bind eff_ret Js.cloneDeep : effdb.

(** Runs an effectful body symbolically: the bodies are unfolded down to the
    updates of the state, which [cbn] then reads field by field. *)
Ltac eff_unfold := autounfold with effdb.
Ltac eff_run := eff_unfold; cbn.

(** The calls that make a reference are kept folded while a body is run and
    are resolved by their equations below, once the user id is known. *)
#[local] Arguments Database.ref : simpl never.
#[local] Arguments Database.saveNewCategories : simpl never.
#[local] Arguments Database.saveNewImportedFiles : simpl never.
#[local] Arguments Database.saveNewExpenseSourceTypes : simpl never.
#[local] Arguments Database.getUserDetailsById : simpl never.

Section References.

Lemma validChars_app (a b : string) :
  Firebase.validChars (a +:+ b) = Firebase.validChars a && Firebase.validChars b.
Proof.
  induction a as [|c a IH]; [done|].
  change (String c a +:+ b) with (String c (a +:+ b)).
  cbn [Firebase.validChars]. rewrite IH. by rewrite andb_assoc.
Qed.

(** A path under [users/{id}] is accepted exactly when [id] is. *)
Lemma userPath_valid (id suffix : string) :
  Firebase.validChars suffix = true →
  Firebase.isValidPathString ("users/" +:+ id +:+ suffix) = Firebase.validChars id.
Proof.
  intros Hs. unfold Firebase.isValidPathString.
  rewrite !validChars_app, Hs, andb_true_r. reflexivity.
Qed.

Lemma userRoot_valid (id : string) :
  Firebase.isValidPathString ("users/" +:+ id) = Firebase.validChars id.
Proof.
  unfold Firebase.isValidPathString. rewrite validChars_app. reflexivity.
Qed.

Lemma ref_run (path : string) (w : World) :
  Database.ref path w
  = if Firebase.isValidPathString path then (w, Js.Normal ())
    else (w, Js.Throw (Firebase.invalidPath path)).
Proof. unfold Database.ref. by destruct (Firebase.isValidPathString path). Qed.

Lemma saveNewCategories_run (categories : list string) (id : string) (w : World) :
  Database.saveNewCategories categories id w
  = if Firebase.validChars id
    then Database.send
           (Firebase.SetList ("users/" +:+ id +:+ "/categories") categories) w
    else (w, Js.Throw (Firebase.invalidPath ("users/" +:+ id +:+ "/categories"))).
Proof.
  unfold Database.saveNewCategories. cbv zeta.
  unfold mbind, eff_bind. rewrite ref_run, userPath_valid by reflexivity.
  by destruct (Firebase.validChars id).
Qed.

Lemma saveNewExpenseSourceTypes_run (types : list string) (id : string) (w : World) :
  Database.saveNewExpenseSourceTypes types id w
  = if Firebase.validChars id
    then Database.send (Firebase.SetList ("users/" +:+ id +:+ "/types") types) w
    else (w, Js.Throw (Firebase.invalidPath ("users/" +:+ id +:+ "/types"))).
Proof.
  unfold Database.saveNewExpenseSourceTypes. cbv zeta.
  unfold mbind, eff_bind. rewrite ref_run, userPath_valid by reflexivity.
  by destruct (Firebase.validChars id).
Qed.

Lemma getUserDetailsById_run (id : string) (w : World) :
  Database.getUserDetailsById id w
  = if Firebase.validChars id
    then Database.send (Firebase.Once ("users/" +:+ id)) w
    else (w, Js.Throw (Firebase.invalidPath ("users/" +:+ id))).
Proof.
  unfold Database.getUserDetailsById. cbv zeta.
  unfold mbind, eff_bind. rewrite ref_run, userRoot_valid.
  by destruct (Firebase.validChars id).
Qed.

End References.

(** Running a save or a load once the user id is known to be [id], with
    [Ht], [Hid] what the test of the user id comes to and [Hv] whether the
    store accepts [id]. *)
Ltac run_save Ht Hid Hv :=
  eff_run; rewrite Ht, Hid; cbn;
  rewrite ?saveNewCategories_run, ?saveNewExpenseSourceTypes_run, Hv; eff_run.
Ltac run_load Ht Hid Hv :=
  eff_unfold; rewrite Ht, Hid; cbn;
  rewrite !getUserDetailsById_run, Hv; eff_unfold.

Section ListNormalizer.

Lemma isNonEmptyString_spec v :
  Js.isNonEmptyString v = true ↔ ∃ s, v = Js.VString s ∧ s ≠ "".
Proof.
  split.
  - destruct v as [| |b|x|s|l|p]; cbn; try discriminate.
    intros H. exists s. split; [done|]. intros ->. discriminate.
  - intros (s & -> & Hs). destruct s; [done|reflexivity].
Qed.

Lemma narrow_filter_keep (vs : list Js.value) :
  Js.narrow (List.filter Js.isNonEmptyString vs) = keepNonEmptyStrings vs.
Proof.
  induction vs as [|v vs IH]; [done|].
  destruct v as [| |b|x|s|l|p]; cbn; try exact IH.
  destruct s as [|c s]; cbn; [exact IH|].
  unfold Js.narrow in IH. cbn. by rewrite IH.
Qed.

Lemma narrow_filter_same (vs : list Js.value) :
  map Js.VString (Js.narrow (List.filter Js.isNonEmptyString vs))
  = List.filter Js.isNonEmptyString vs.
Proof.
  induction vs as [|v vs IH]; [done|].
  cbn [List.filter]. destruct (Js.isNonEmptyString v) eqn:E; [|exact IH].
  apply isNonEmptyString_spec in E as (s & -> & _).
  cbn. unfold Js.narrow in IH. by rewrite IH.
Qed.

Lemma keepNonEmptyStrings_nonempty (vs : list Js.value) :
  Forall (λ s : string, s ≠ "" ∧ (0 < String.length s)%nat) (keepNonEmptyStrings vs).
Proof.
  induction vs as [|v vs IH]; [constructor|].
  destruct v as [| |b|x|s|l|p]; cbn; try exact IH.
  destruct (decide (s = "")) as [->|Hs]; [exact IH|].
  constructor; [|exact IH]. split; [done|]. destruct s; [done|cbn; lia].
Qed.

Lemma keepNonEmptyStrings_elem (vs : list Js.value) (s : string) :
  s ∈ keepNonEmptyStrings vs ↔ Js.VString s ∈ vs ∧ s ≠ "".
Proof.
  induction vs as [|v vs IH]; cbn.
  - split; [by intros ?%elem_of_nil|by intros [?%elem_of_nil _]].
  - assert (Hskip : ∀ v', (∀ t, v' ≠ Js.VString t) →
        (s ∈ keepNonEmptyStrings vs ↔ Js.VString s ∈ v' :: vs ∧ s ≠ "")).
    { intros v' Hv'. rewrite IH, elem_of_cons. split.
      - intros [? ?]. split; [by right|done].
      - intros [[E|?] ?]; [by destruct (Hv' s)|done]. }
    destruct v as [| |b|x|t|l|p]; try (apply Hskip; intros ? [=]).
    destruct (decide (t = "")) as [->|Ht].
    + rewrite IH, elem_of_cons. split.
      * intros [? ?]. split; [by right|done].
      * intros [[[= <-]|?] ?]; done.
    + rewrite !elem_of_cons, IH. split.
      * intros [->|[? ?]]; [split; [by left|done]|split; [by right|done]].
      * intros [[[= ->]|?] ?]; [by left|by right].
Qed.

Lemma Settings_normalizeStringList_run (raw : Js.value) :
  Settings.normalizeStringList raw = Js.Normal (normalize raw).
Proof.
  destruct raw as [| |b|x|s|elems|props]; cbn; try done.
  - by destruct b.
  - unfold Settings.normalizeStringList. cbn [Js.typeof].
    by rewrite andb_false_r.
  - unfold Settings.normalizeStringList. cbn [Js.typeof].
    by rewrite andb_false_r.
  - by rewrite narrow_filter_keep.
  - by rewrite narrow_filter_keep.
Qed.

Lemma Layout_normalizeStringList_run (raw : Js.value) :
  Layout.normalizeStringList raw = Js.Normal (normalize raw).
Proof. exact (Settings_normalizeStringList_run raw). Qed.

(** C1.  For every raw value, both copies of [normalizeStringList] return
    (they do not throw) the same list, every element of which is a non-empty
    string.  On [undefined], [null], a boolean, a number and a plain string
    the list is empty; on an array it is exactly the array's non-empty-string
    elements, in order; on an object it is the same filter applied to the
    property values in enumeration order. *)
Theorem C1_normalizeStringList_total_filter (raw : Js.value) :
  ∃ out : list string,
    Settings.normalizeStringList raw = Js.Normal out
    ∧ Layout.normalizeStringList raw = Js.Normal out
    ∧ Forall (λ s : string, s ≠ "" ∧ (0 < String.length s)%nat) out
    ∧ match raw with
      | Js.VUndefined | Js.VNull => out = []
      | Js.VBool _ | Js.VNumber _ | Js.VString _ => out = []
      | Js.VArray elems =>
          out = keepNonEmptyStrings elems
          ∧ map Js.VString out = List.filter Js.isNonEmptyString elems
          ∧ ∀ s, s ∈ out ↔ Js.VString s ∈ elems ∧ s ≠ ""
      | Js.VObject props =>
          out = keepNonEmptyStrings (map snd props)
          ∧ map Js.VString out = List.filter Js.isNonEmptyString (map snd props)
          ∧ ∀ s, s ∈ out ↔ Js.VString s ∈ map snd props ∧ s ≠ ""
      end.
Proof.
  exists (normalize raw).
  rewrite Settings_normalizeStringList_run, Layout_normalizeStringList_run.
  split_and!; try done.
  - destruct raw; cbn; try constructor; apply keepNonEmptyStrings_nonempty.
  - destruct raw as [| |b|x|s|elems|props]; cbn [normalize]; try done.
    + split_and!; [done| |apply keepNonEmptyStrings_elem].
      rewrite <- narrow_filter_keep. apply narrow_filter_same.
    + split_and!; [done| |apply keepNonEmptyStrings_elem].
      rewrite <- narrow_filter_keep. apply narrow_filter_same.
Qed.

End ListNormalizer.

(* --------------------------------------------------------------------- *)
(** *** The defaults policy and the settings component                    *)
(* --------------------------------------------------------------------- *)

Section Reconciler.
Context (defaultExpenseCategories defaultExpenseTypes : list string).

Abbreviation categoryOption := (Settings.categoryOption defaultExpenseCategories).
Abbreviation sourceTypeOption := (Settings.sourceTypeOption defaultExpenseTypes).
Abbreviation setCategoriesOptions := (Settings.setCategoriesOptions defaultExpenseCategories).
Abbreviation setSourceTypeOptions := (Settings.setSourceTypeOptions defaultExpenseTypes).
Abbreviation loadSettings :=
  (Settings.getAllUserDetails defaultExpenseCategories defaultExpenseTypes).
Abbreviation loadLayout :=
  (Layout.getAllUserDetails defaultExpenseCategories defaultExpenseTypes).
Abbreviation logout := (Layout.logout defaultExpenseCategories defaultExpenseTypes).

Lemma includes_elem_of (collection : list string) (x : string) :
  Js.includes collection x = true ↔ x ∈ collection.
Proof.
  induction collection as [|y rest IH]; cbn.
  - split; [discriminate|by intros ?%elem_of_nil].
  - rewrite elem_of_cons. destruct (String.eqb_spec y x) as [->|Hne].
    + split; [by left|done].
    + rewrite IH. split; [by right|]. intros [->|?]; [done|done].
Qed.

Lemma removable_default (defaults : list string) (v : string) :
  negb (Js.includes defaults v) = false ↔ v ∈ defaults.
Proof. rewrite negb_false_iff. apply includes_elem_of. Qed.

Lemma map_option_default (defaults : list string) :
  map (λ v, {| value := v; removable := negb (Js.includes defaults v) |}) defaults
  = map (λ v, {| value := v; removable := false |}) defaults.
Proof.
  apply map_ext_in. intros v Hv. f_equal.
  apply removable_default. by apply list_elem_of_In.
Qed.

Lemma currentUid_run (w : World) :
  Users.currentUid w
  = (w, Js.Normal (Js.or_str (uid <$> w.(userService).(user)) w.(userService).(userId))).
Proof. reflexivity. Qed.

Lemma signedInAs_uid (w : World) (id : string) :
  signedInAs w id →
  Js.or_str (uid <$> w.(userService).(user)) w.(userService).(userId) = Some id
  ∧ String.eqb id "" = false.
Proof.
  intros (H & Hid & _). unfold Eff.result in H. rewrite currentUid_run in H.
  cbn in H. split; [congruence|]. by apply String.eqb_neq.
Qed.

Lemma signedInAs_valid (w : World) (id : string) :
  signedInAs w id → Firebase.validChars id = true.
Proof. by intros (_ & _ & H). Qed.

Lemma refusedAs_truthy (w : World) (id : string) :
  refusedAs w id →
  Js.truthy_str
    (Js.or_str (uid <$> w.(userService).(user)) w.(userService).(userId)) = true
  ∧ Js.or_str (uid <$> w.(userService).(user)) w.(userService).(userId) = Some id
  ∧ Firebase.validChars id = false.
Proof.
  intros (H & Hid & Hv). unfold Eff.result in H. rewrite currentUid_run in H.
  cbn in H. injection H as H. rewrite H. split_and!; [|done|done].
  cbn. apply String.eqb_neq in Hid. by rewrite Hid.
Qed.

Lemma signedInAs_truthy (w : World) (id : string) :
  signedInAs w id →
  Js.truthy_str
    (Js.or_str (uid <$> w.(userService).(user)) w.(userService).(userId)) = true
  ∧ Js.or_str (uid <$> w.(userService).(user)) w.(userService).(userId) = Some id.
Proof.
  intros [H Hne]%signedInAs_uid. rewrite H. split; [|done]. cbn. by rewrite Hne.
Qed.

Lemma noUserId_uid (w : World) :
  noUserId w →
  Js.truthy_str
    (Js.or_str (uid <$> w.(userService).(user)) w.(userService).(userId)) = false.
Proof.
  unfold noUserId, Eff.result. rewrite currentUid_run. cbn.
  intros [[= ->]|[= ->]]; reflexivity.
Qed.

(** C8.  The flag [removable] that [setCategoriesOptions] and
    [setSourceTypeOptions] derive for a value is false exactly when the value
    occurs in the matching default list, compared as strings character by
    character (so case matters), and true for every other string; every entry
    the two methods put in the signals carries the flag so derived. *)
Theorem C8_removable_iff_not_default (v : string) :
  (removable (categoryOption v) = false ↔ v ∈ defaultExpenseCategories)
  ∧ (removable (categoryOption v) = true ↔ v ∉ defaultExpenseCategories)
  ∧ (removable (sourceTypeOption v) = false ↔ v ∈ defaultExpenseTypes)
  ∧ (removable (sourceTypeOption v) = true ↔ v ∉ defaultExpenseTypes)
  ∧ Forall (λ d, removable (categoryOption d) = false) defaultExpenseCategories
  ∧ (∀ (arr : list string) (w : World),
       (Eff.exec (setCategoriesOptions arr) w).(settings).(categoriesSignal)
       = map categoryOption arr
       ∧ (Eff.exec (setSourceTypeOptions arr) w).(settings).(sourceTypeSignal)
         = map sourceTypeOption arr)
  ∧ removable (Settings.categoryOption ["Food"; "Travel"] "food") = true
  ∧ removable (Settings.categoryOption ["Food"; "Travel"] "Food") = false.
Proof.
  split_and!.
  - apply removable_default.
  - cbn. rewrite negb_true_iff, <- not_true_iff_false. by rewrite includes_elem_of.
  - apply removable_default.
  - cbn. rewrite negb_true_iff, <- not_true_iff_false. by rewrite includes_elem_of.
  - apply Forall_forall. intros d Hd. by apply removable_default.
  - intros arr w. by eff_run.
  - reflexivity.
  - reflexivity.
Qed.

(** C2.  For a signed-in user whose stored [categories] field is absent, or
    normalizes to the empty list, a successful load of the settings component
    yields the default categories, in order, every entry non-removable (in
    the working copy, in the committed copy and in the data service), and the
    layout's load puts the same defaults in the data service; source types
    fall back to their defaults in the same way; the imported-files list is
    what the stored field normalizes to, with no default. *)
Theorem C2_load_falls_back_to_defaults (w : World) (id : string) (snapshot : Js.value) :
  signedInAs w id →
  let data := Js.nullish snapshot (Js.VObject []) in
  let ws := Eff.exec (loadSettings (Js.Fulfilled snapshot)) w in
  let wl := Eff.exec (loadLayout (Js.Fulfilled snapshot)) w in
  (Js.get data "categories" = Js.VUndefined → normalize (Js.get data "categories") = [])
  ∧ (normalize (Js.get data "categories") = [] →
       map value ws.(settings).(categoriesSignal) = defaultExpenseCategories
       ∧ Forall (λ o, removable o = false) ws.(settings).(categoriesSignal)
       ∧ ws.(settings).(copyCategoriesSignal) = ws.(settings).(categoriesSignal)
       ∧ ws.(expenseDataService).(categoriesData) = defaultExpenseCategories
       ∧ wl.(expenseDataService).(categoriesData) = defaultExpenseCategories)
  ∧ (normalize (Js.get data "types") = [] →
       map value ws.(settings).(sourceTypeSignal) = defaultExpenseTypes
       ∧ Forall (λ o, removable o = false) ws.(settings).(sourceTypeSignal)
       ∧ ws.(settings).(sourceTypeSignalOriginal) = ws.(settings).(sourceTypeSignal)
       ∧ wl.(expenseDataService).(expenseSourcesData) = defaultExpenseTypes)
  ∧ wl.(expenseDataService).(filesImported) = normalize (Js.get data "filesImported")
  ∧ Eff.result (loadSettings (Js.Fulfilled snapshot)) w = Js.Normal ()
  ∧ Eff.result (loadLayout (Js.Fulfilled snapshot)) w = Js.Normal ().
Proof.
  intros Hw. pose proof (signedInAs_valid _ _ Hw) as Hv.
  apply signedInAs_truthy in Hw as [Ht Hid]. cbv zeta.
  eff_unfold. rewrite Ht, Hid. cbn. rewrite !getUserDetailsById_run, Hv. eff_unfold.
  rewrite ?Settings_normalizeStringList_run, ?Layout_normalizeStringList_run. cbn.
  split_and!; try done.
  - by intros ->.
  - intros ->. cbn. unfold Settings.categoryOption.
    rewrite map_option_default, map_map. cbn.
    split_and!; try done.
    + apply map_id.
    + apply Forall_forall. intros o (d & -> & _)%list_elem_of_fmap. done.
  - intros ->. cbn. unfold Settings.sourceTypeOption.
    rewrite map_option_default, map_map. cbn.
    split_and!; try done.
    + apply map_id.
    + apply Forall_forall. intros o (d & -> & _)%list_elem_of_fmap. done.
Qed.

Lemma sampleWorld_signedIn : signedInAs sampleWorld "u1".
Proof. split_and!; [reflexivity|discriminate|reflexivity]. Qed.


(** The request [saveCategories] sends for the working copy of [w]. *)
Lemma saveCategories_sends (w : World) (id : string) (saved : Js.settled ()) :
  signedInAs w id →
  (Eff.exec (Settings.saveCategories saved) w).(database).(calls)
  = w.(database).(calls)
    ++ [Firebase.SetList ("users/" +:+ id +:+ "/categories")
          (map value w.(settings).(categoriesSignal))].
Proof.
  intros Hw. pose proof (signedInAs_valid _ _ Hw) as Hv.
  apply signedInAs_truthy in Hw as [Ht Hid].
  eff_run. rewrite Ht, Hid. cbn. rewrite saveNewCategories_run, Hv. eff_run.
  destruct saved; reflexivity.
Qed.



(** The handlers of [saveCategories] taken alone, whatever the state has
    become by the time the promise settles: the rejection handler touches
    neither copy, the fulfilment handler commits the working copy it finds. *)
Lemma saveCategories_handlers (w : World) (e : Js.thrown) :
  (Eff.exec (Settings.saveCategories_catch e) w).(settings).(categoriesSignal)
  = w.(settings).(categoriesSignal)
  ∧ (Eff.exec (Settings.saveCategories_catch e) w).(settings).(copyCategoriesSignal)
    = w.(settings).(copyCategoriesSignal)
  ∧ (Eff.exec Settings.saveCategories_then w).(settings).(copyCategoriesSignal)
    = w.(settings).(categoriesSignal).
Proof. by eff_run. Qed.

(** C5.  When the user id is absent or empty, [saveCategories] sends nothing
    to the store (the database service is untouched), shows
    [No user id found.], which is how the missing user is reported, leaves
    the in-progress flag false and returns normally: no error is thrown and
    there is no promise to reject; the lists are as they were. *)
Theorem C5_saveCategories_without_user (w : World) (saved : Js.settled ()) :
  noUserId w →
  let w' := Eff.exec (Settings.saveCategories saved) w in
  w'.(database) = w.(database)
  ∧ w'.(snackBar)
    = w.(snackBar)
      ++ [{| message := "No user id found."; action := ""; duration := 2000 |}]
  ∧ w'.(settings).(isUpdatingCategories) = false
  ∧ w'.(settings).(categoriesSignal) = w.(settings).(categoriesSignal)
  ∧ w'.(settings).(copyCategoriesSignal) = w.(settings).(copyCategoriesSignal)
  ∧ w'.(expenseDataService) = w.(expenseDataService)
  ∧ w'.(userService) = w.(userService)
  ∧ Eff.result (Settings.saveCategories saved) w = Js.Normal ().
Proof.
  intros Hw%noUserId_uid. eff_run. rewrite Hw. cbn.
  by destruct w as [? ? [] ? ?].
Qed.

Lemma signedOutWorld_noUserId : noUserId signedOutWorld.
Proof. left. reflexivity. Qed.

Lemma C5_saveCategories_without_user_witness :
  noUserId signedOutWorld
  ∧ (Eff.exec (Settings.saveCategories (Js.Fulfilled ()))
       signedOutWorld).(database).(calls) = [].
Proof.
  split; [exact signedOutWorld_noUserId|].
  pose proof (C5_saveCategories_without_user signedOutWorld (Js.Fulfilled ())
                signedOutWorld_noUserId) as [H _].
  rewrite H. reflexivity.
Defined.

(** C5, as stated, fails with nobody signed in: the call does not end in an
    error, it returns. *)
Lemma C5_saveCategories_returns_without_user :
  noUserId signedOutWorld
  ∧ Eff.result (Settings.saveCategories (Js.Fulfilled ())) signedOutWorld = Js.Normal ()
  ∧ (∀ e : Js.thrown,
       Eff.result (Settings.saveCategories (Js.Fulfilled ())) signedOutWorld
       ≠ Js.Throw e).
Proof. split; [exact signedOutWorld_noUserId|]. by split. Qed.

(** C9.  Once the sign-out has completed, the data service holds an empty
    expense collection, an empty imported-files list, no time-frame filter
    and the two configured default lists, and no user is signed in: the
    canonical state is the same whatever it was before, so nothing of the
    previous session remains, and a load started for the next session builds
    on that state alone. *)
Theorem C9_logout_clears_session (w1 w2 : World) :
  let w1' := Eff.exec (logout (Js.Fulfilled ())) w1 in
  let w2' := Eff.exec (logout (Js.Fulfilled ())) w2 in
  Eff.result (logout (Js.Fulfilled ())) w1 = Js.Normal ()
  ∧ w1'.(userService).(user) = None
  ∧ w1'.(expenseDataService).(expensesData) = []
  ∧ w1'.(expenseDataService).(filesImported) = []
  ∧ w1'.(expenseDataService).(timeFrameFilter) = Js.VUndefined
  ∧ w1'.(expenseDataService).(categoriesData) = defaultExpenseCategories
  ∧ w1'.(expenseDataService).(expenseSourcesData) = defaultExpenseTypes
  ∧ w1'.(expenseDataService) = w2'.(expenseDataService)
  ∧ (∀ (next : AuthUser) (loaded : Js.settled Js.value),
       next.(uid) ≠ "" →
       (Eff.exec (Users.setUser (Some next);; loadLayout loaded) w1').(expenseDataService)
       = (Eff.exec (Users.setUser (Some next);; loadLayout loaded) w2').(expenseDataService)).
Proof.
  cbv zeta. split_and!; try by eff_run.
  intros [id] loaded Hid. cbn in Hid. apply String.eqb_neq in Hid.
  eff_run. unfold Js.or_str, Js.truthy_str. cbn. repeat (rewrite Hid; cbn).
  rewrite !getUserDetailsById_run. destruct (Firebase.validChars id); [|done].
  eff_run. destruct loaded as [snapshot|e]; [|done].
  by rewrite ?Layout_normalizeStringList_run.
Qed.

(** Every state resolves no user id, one for which a request can be made,
    or one the store refuses. *)
Lemma uid_cases (w : World) :
  noUserId w ∨ (∃ id, signedInAs w id) ∨ (∃ id, refusedAs w id).
Proof.
  unfold noUserId, signedInAs, refusedAs, Eff.result. rewrite currentUid_run. cbn.
  destruct (Js.or_str _ _) as [id|]; [|by left; left].
  destruct (decide (id = "")) as [->|Hid]; [by left; right|]. right.
  destruct (Firebase.validChars id) eqn:Hv; [left|right]; by exists id.
Qed.

Lemma saveCategories_flag (w : World) (saved : Js.settled ()) :
  noUserId w ∨ (∃ id, signedInAs w id) →
  let w' := Eff.exec (Settings.saveCategories saved) w in
  Eff.result (Settings.saveCategories saved) w = Js.Normal ()
  ∧ w'.(settings).(isUpdatingCategories) = false
  ∧ w'.(settings).(isUpdatingSourceTypes) = w.(settings).(isUpdatingSourceTypes)
  ∧ w'.(settings).(isLoadingUserInformation) = w.(settings).(isLoadingUserInformation)
  ∧ w'.(settings).(isLoadingUserCategories) = w.(settings).(isLoadingUserCategories).
Proof.
  intros [Hw%noUserId_uid|[id Hw]]; cbv zeta.
  - eff_run. rewrite Hw. by cbn.
  - pose proof (signedInAs_valid _ _ Hw) as Hv.
    apply signedInAs_truthy in Hw as [Ht Hid].
    eff_run. rewrite Ht, Hid. cbn. rewrite saveNewCategories_run, Hv. eff_run.
    by destruct saved.
Qed.

Lemma saveTypes_flag (w : World) (saved : Js.settled ()) :
  noUserId w ∨ (∃ id, signedInAs w id) →
  let w' := Eff.exec (Settings.saveTypes saved) w in
  Eff.result (Settings.saveTypes saved) w = Js.Normal ()
  ∧ w'.(settings).(isUpdatingSourceTypes) = false
  ∧ w'.(settings).(isUpdatingCategories) = w.(settings).(isUpdatingCategories)
  ∧ w'.(settings).(isLoadingUserInformation) = w.(settings).(isLoadingUserInformation)
  ∧ w'.(settings).(isLoadingUserCategories) = w.(settings).(isLoadingUserCategories).
Proof.
  intros [Hw%noUserId_uid|[id Hw]]; cbv zeta.
  - eff_run. rewrite Hw. by cbn.
  - pose proof (signedInAs_valid _ _ Hw) as Hv.
    apply signedInAs_truthy in Hw as [Ht Hid].
    eff_run. rewrite Ht, Hid. cbn. rewrite saveNewExpenseSourceTypes_run, Hv. eff_run.
    by destruct saved.
Qed.

Lemma getAllUserDetails_flags (w : World) (id : string) (loaded : Js.settled Js.value) :
  signedInAs w id →
  let w' := Eff.exec (loadSettings loaded) w in
  Eff.result (loadSettings loaded) w = Js.Normal ()
  ∧ w'.(settings).(isLoadingUserInformation) = false
  ∧ w'.(settings).(isLoadingUserCategories) = false
  ∧ w'.(settings).(isUpdatingCategories) = w.(settings).(isUpdatingCategories)
  ∧ w'.(settings).(isUpdatingSourceTypes) = w.(settings).(isUpdatingSourceTypes).
Proof.
  intros Hw. pose proof (signedInAs_valid _ _ Hw) as Hv.
  apply signedInAs_truthy in Hw as [Ht Hid]. cbv zeta.
  eff_unfold. rewrite Ht, Hid. cbn. rewrite !getUserDetailsById_run, Hv. eff_unfold.
  destruct loaded as [snapshot|e]; [|done].
  by rewrite ?Settings_normalizeStringList_run.
Qed.

Lemma getAllUserDetails_short_circuit (w : World) (loaded : Js.settled Js.value) :
  noUserId w → loadSettings loaded w = (w, Js.Normal ()).
Proof. intros Hw%noUserId_uid. eff_unfold. rewrite Hw. reflexivity. Qed.

Lemma layout_short_circuit (w : World) (loaded : Js.settled Js.value) :
  noUserId w → loadLayout loaded w = (w, Js.Normal ()).
Proof. intros Hw%noUserId_uid. eff_unfold. rewrite Hw. reflexivity. Qed.

(** What the operations come to when [ref] refuses the path: the throw
    leaves the call before [.then] and [.catch] are attached, so the state is
    the one in which the flags were raised. *)
Lemma saveCategories_refused (w : World) (id : string) (saved : Js.settled ()) :
  refusedAs w id →
  Settings.saveCategories saved w
  = (Eff.exec (Settings.isUpdatingCategories_set true) w,
     Js.Throw (Firebase.invalidPath ("users/" +:+ id +:+ "/categories"))).
Proof.
  intros (Ht & Hid & Hv)%refusedAs_truthy.
  eff_run. rewrite Ht, Hid. cbn. rewrite saveNewCategories_run, Hv. reflexivity.
Qed.

Lemma saveTypes_refused (w : World) (id : string) (saved : Js.settled ()) :
  refusedAs w id →
  Settings.saveTypes saved w
  = (Eff.exec (Settings.isUpdatingSourceTypes_set true) w,
     Js.Throw (Firebase.invalidPath ("users/" +:+ id +:+ "/types"))).
Proof.
  intros (Ht & Hid & Hv)%refusedAs_truthy.
  eff_run. rewrite Ht, Hid. cbn. rewrite saveNewExpenseSourceTypes_run, Hv. reflexivity.
Qed.

Lemma getAllUserDetails_refused (w : World) (id : string) (loaded : Js.settled Js.value) :
  refusedAs w id →
  loadSettings loaded w
  = (Eff.exec (Settings.isLoadingUserInformation_set true;;
               Settings.isLoadingUserCategories_set true) w,
     Js.Throw (Firebase.invalidPath ("users/" +:+ id))).
Proof.
  intros (Ht & Hid & Hv)%refusedAs_truthy.
  eff_unfold. rewrite Ht, Hid. cbn. rewrite getUserDetailsById_run, Hv. reflexivity.
Qed.

Lemma layout_refused (w : World) (id : string) (loaded : Js.settled Js.value) :
  refusedAs w id →
  loadLayout loaded w = (w, Js.Throw (Firebase.invalidPath ("users/" +:+ id))).
Proof.
  intros (Ht & Hid & Hv)%refusedAs_truthy.
  eff_unfold. rewrite Ht, Hid. cbn. rewrite getUserDetailsById_run, Hv. reflexivity.
Qed.

(** C10.  On the three paths the claim names the flags are reset: with no
    user id a save lowers its flag again and a load returns before raising
    any; with a user id for which the request is made, the save and the load
    end with their flags false whether the store fulfils or rejects.  There
    is a fourth path.  When the user id holds a character the store refuses
    in a path, [ref] throws inside the service call, before [.then] and
    [.catch] are attached: the operation ends by that throw, nothing has
    been sent, and the flags it raised stay true.  Every state is in one of
    the three cases. *)
Theorem C10_in_progress_flags
    (w : World) (saved : Js.settled ()) (loaded : Js.settled Js.value) :
  let wc := Eff.exec (Settings.saveCategories saved) w in
  let wt := Eff.exec (Settings.saveTypes saved) w in
  let wl := Eff.exec (loadSettings loaded) w in
  (noUserId w →
     wc.(settings).(isUpdatingCategories) = false
     ∧ wt.(settings).(isUpdatingSourceTypes) = false
     ∧ wl = w)
  ∧ (∀ id, signedInAs w id →
       wc.(settings).(isUpdatingCategories) = false
       ∧ wt.(settings).(isUpdatingSourceTypes) = false
       ∧ wl.(settings).(isLoadingUserInformation) = false
       ∧ wl.(settings).(isLoadingUserCategories) = false)
  ∧ (∀ id, refusedAs w id →
       Eff.result (Settings.saveCategories saved) w
       = Js.Throw (Firebase.invalidPath ("users/" +:+ id +:+ "/categories"))
       ∧ wc.(settings).(isUpdatingCategories) = true
       ∧ wc.(database) = w.(database)
       ∧ Eff.result (Settings.saveTypes saved) w
         = Js.Throw (Firebase.invalidPath ("users/" +:+ id +:+ "/types"))
       ∧ wt.(settings).(isUpdatingSourceTypes) = true
       ∧ wt.(database) = w.(database)
       ∧ Eff.result (loadSettings loaded) w
         = Js.Throw (Firebase.invalidPath ("users/" +:+ id))
       ∧ wl.(settings).(isLoadingUserInformation) = true
       ∧ wl.(settings).(isLoadingUserCategories) = true
       ∧ wl.(database) = w.(database))
  ∧ (noUserId w ∨ (∃ id, signedInAs w id) ∨ (∃ id, refusedAs w id)).
Proof.
  cbv zeta. split_and!; [| | |apply uid_cases].
  - intros Hw. split_and!.
    + apply saveCategories_flag. by left.
    + apply saveTypes_flag. by left.
    + unfold Eff.exec. by rewrite getAllUserDetails_short_circuit.
  - intros id Hw. split_and!.
    + apply saveCategories_flag. right. by exists id.
    + apply saveTypes_flag. right. by exists id.
    + by apply (getAllUserDetails_flags w id).
    + by apply (getAllUserDetails_flags w id).
  - intros id Hw. unfold Eff.exec, Eff.result.
    rewrite (saveCategories_refused w id), (saveTypes_refused w id),
      (getAllUserDetails_refused w id) by done.
    by eff_run.
Qed.

End Reconciler.

Lemma C2_load_falls_back_to_defaults_witness :
  signedInAs sampleWorld "u1"
  ∧ map value
      (Eff.exec (Settings.getAllUserDetails ["Food"; "Travel"] ["Cash"; "Card"]
                   (Js.Fulfilled Js.VNull)) sampleWorld).(settings).(categoriesSignal)
    = ["Food"; "Travel"].
Proof.
  split; [exact sampleWorld_signedIn|].
  apply (C2_load_falls_back_to_defaults ["Food"; "Travel"] ["Cash"; "Card"]
           sampleWorld "u1" Js.VNull sampleWorld_signedIn).
  reflexivity.
Defined.

Lemma C9_logout_clears_session_witness :
  (Eff.exec (Layout.logout ["Food"; "Travel"] ["Cash"; "Card"] (Js.Fulfilled ()))
     sampleWorld).(expenseDataService)
  = (Eff.exec (Layout.logout ["Food"; "Travel"] ["Cash"; "Card"] (Js.Fulfilled ()))
       signedOutWorld).(expenseDataService)
  ∧ (Eff.exec (Layout.logout ["Food"; "Travel"] ["Cash"; "Card"] (Js.Fulfilled ()))
       sampleWorld).(expenseDataService)
    = {| expensesData := [];
         timeFrameFilter := Js.VUndefined;
         filesImported := [];
         categoriesData := ["Food"; "Travel"];
         expenseSourcesData := ["Cash"; "Card"] |}.
Proof.
  split; [|reflexivity].
  apply (C9_logout_clears_session ["Food"; "Travel"] ["Cash"; "Card"]
           sampleWorld signedOutWorld).
Defined.

Lemma dottedWorld_refused : refusedAs dottedWorld "a.b".
Proof. split_and!; [reflexivity|discriminate|reflexivity]. Qed.

Lemma C10_in_progress_flags_witness :
  refusedAs dottedWorld "a.b"
  ∧ Eff.result (Settings.saveCategories (Js.Fulfilled ())) dottedWorld
    = Js.Throw (Firebase.invalidPath "users/a.b/categories")
  ∧ (Eff.exec (Settings.saveCategories (Js.Fulfilled ()))
       dottedWorld).(settings).(isUpdatingCategories) = true
  ∧ (Eff.exec (Settings.saveCategories (Js.Fulfilled ())) dottedWorld).(database)
    = dottedWorld.(database).
Proof.
  split; [exact dottedWorld_refused|].
  destruct (C10_in_progress_flags ["Food"] ["Cash"] dottedWorld
              (Js.Fulfilled ()) (Js.Fulfilled Js.VNull)) as (_ & _ & H & _).
  destruct (H "a.b" dottedWorld_refused) as (H1 & H2 & H3 & _).
  by split_and!.
Defined.

(* --------------------------------------------------------------------- *)
(** *** The multi-path writes of the database service                     *)
(* --------------------------------------------------------------------- *)

Section BatchedWrites.

Lemma expensePath_inj (userId : string) : Inj (=) (=) (Database.expensePath userId).
Proof.
  intros k1 k2 H. unfold Database.expensePath in H.
  by repeat apply String.app_inj in H.
Qed.

Lemma Object_keys_elem {V} (o : gmap string V) (k : string) :
  k ∈ Database.Object_keys o ↔ is_Some (o !! k).
Proof.
  unfold Database.Object_keys. rewrite list_elem_of_fmap. split.
  - intros ([k' v] & -> & Hin). apply elem_of_map_to_list in Hin. by exists v.
  - intros [v Hv]. exists (k, v). split; [done|]. by apply elem_of_map_to_list.
Qed.

Lemma scope_foldl_lookup (uid : string) (updates acc : gmap string (option Expense))
    (keys : list string) (k : string) :
  foldl (Database.scope uid updates) acc keys !! Database.expensePath uid k
  = if decide (k ∈ keys) then Some (default None (updates !! k))
    else acc !! Database.expensePath uid k.
Proof.
  revert acc. induction keys as [|k0 keys IH]; intros acc; cbn [foldl].
  - by rewrite decide_False by apply not_elem_of_nil.
  - rewrite IH. destruct (decide (k ∈ keys)) as [Hin|Hnin].
    + by rewrite decide_True by (by right).
    + unfold Database.scope at 1. destruct (decide (k = k0)) as [->|Hne].
      * rewrite lookup_insert_eq. by rewrite decide_True by (by left).
      * rewrite lookup_insert_ne by (intros E; by apply expensePath_inj in E).
        rewrite decide_False; [done|]. by intros [?|?]%elem_of_cons.
Qed.

Lemma scope_foldl_other (uid : string) (updates acc : gmap string (option Expense))
    (keys : list string) (p : string) :
  (∀ k, k ∈ keys → p ≠ Database.expensePath uid k) →
  foldl (Database.scope uid updates) acc keys !! p = acc !! p.
Proof.
  revert acc. induction keys as [|k0 keys IH]; intros acc Hp; cbn [foldl]; [done|].
  rewrite IH by (intros k Hk; apply Hp; by right).
  unfold Database.scope. apply lookup_insert_ne.
  intros E. by apply (Hp k0); [left|].
Qed.

Lemma scope_foldl_size (uid : string) (updates acc : gmap string (option Expense))
    (keys : list string) :
  NoDup keys →
  (∀ k, k ∈ keys → acc !! Database.expensePath uid k = None) →
  size (foldl (Database.scope uid updates) acc keys) = size acc + length keys.
Proof.
  revert acc. induction keys as [|k0 keys IH]; intros acc Hnd Hfree; cbn [foldl length].
  - lia.
  - apply NoDup_cons in Hnd as [Hk0 Hnd]. rewrite IH; [|done|].
    + unfold Database.scope. rewrite map_size_insert_None; [lia|].
      apply Hfree. by left.
    + intros k Hk. unfold Database.scope. rewrite lookup_insert_ne.
      * apply Hfree. by right.
      * intros E. apply expensePath_inj in E. by subst.
Qed.

(** The object [scoped] built by [batchUpdateExpenses]: one entry per key
    of [updates], under that key's path, with that key's value. *)
Lemma scoped_spec (uid : string) (updates : gmap string (option Expense)) :
  let scoped := foldl (Database.scope uid updates) ∅ (Database.Object_keys updates) in
  (∀ k, scoped !! Database.expensePath uid k = updates !! k)
  ∧ (∀ p, is_Some (scoped !! p) →
          ∃ k, p = Database.expensePath uid k ∧ is_Some (updates !! k))
  ∧ size scoped = size updates.
Proof.
  cbv zeta.
  assert (Hk : ∀ k, foldl (Database.scope uid updates) ∅ (Database.Object_keys updates)
                    !! Database.expensePath uid k = updates !! k).
  { intros k. rewrite scope_foldl_lookup.
    destruct (decide (k ∈ Database.Object_keys updates)) as [Hin|Hnin].
    - apply Object_keys_elem in Hin as [v ->]. done.
    - rewrite lookup_empty. symmetry. apply eq_None_not_Some.
      by rewrite <- Object_keys_elem. }
  assert (Hp : ∀ p, is_Some (foldl (Database.scope uid updates) ∅
                               (Database.Object_keys updates) !! p) →
                    ∃ k, p = Database.expensePath uid k ∧ is_Some (updates !! k)).
  { intros p Hsome.
    destruct (decide (Exists (λ k, p = Database.expensePath uid k)
                        (Database.Object_keys updates))) as [Hex|Hno].
    - apply Exists_exists in Hex as (k & Hin & ->).
      exists k. split; [done|]. by apply Object_keys_elem.
    - rewrite scope_foldl_other, lookup_empty in Hsome; [by destruct Hsome|].
      intros k Hin ->. apply Hno, Exists_exists. by exists k. }
  split_and!; [done|done|].
  rewrite scope_foldl_size.
  - rewrite map_size_empty. unfold Database.Object_keys.
    by rewrite length_fmap, length_map_to_list.
  - apply NoDup_fst_map_to_list.
  - intros k _. apply lookup_empty.
Qed.

Lemma apply_update_lookup (values : gmap string (option Expense))
    (tree : gmap string Expense) (p : string) :
  Firebase.apply_update values tree !! p
  = match values !! p with
    | Some (Some e) => Some e
    | Some None => None
    | None => tree !! p
    end.
Proof.
  unfold Firebase.apply_update. rewrite lookup_merge.
  by destruct (values !! p) as [[e|]|], (tree !! p).
Qed.

Lemma batchUpdateExpenses_new_style (w : World) (currentUser : option AuthUser)
    (written : Js.settled ()) (userId : string)
    (b : option (gmap string (option Expense))) :
  Database.batchUpdateExpenses currentUser written (Database.AUserId userId) b w
  = (Eff.exec (Database.send (Firebase.RootUpdate
       (foldl (Database.scope userId (default ∅ b)) ∅
          (Database.Object_keys (default ∅ b))))) w,
     settles written).
Proof. unfold Database.batchUpdateExpenses. eff_run. by destruct written. Qed.

(** C3.  Called with a user id and a mapping, [batchUpdateExpenses] sends
    exactly one request, a root update whose entries are the paths
    [users/{uid}/expenses/{key}], one per key of the mapping, each with the
    value the mapping gives the key; by the store's contract a [null] entry
    removes the record and any other entry puts the record there.  Called
    with the mapping alone it takes the user id of the signed-in user and
    does the same; with nobody signed in it rejects with [Not signed in]
    and sends nothing. *)
Theorem C3_batchUpdateExpenses_one_scoped_update
    (w : World) (written : Js.settled ()) (userId : string)
    (updates : gmap string (option Expense)) :
  (∀ currentUser, ∃ scoped,
     scopedAs userId updates scoped
     ∧ Database.batchUpdateExpenses currentUser written
         (Database.AUserId userId) (Some updates) w
       = (Eff.exec (Database.send (Firebase.RootUpdate scoped)) w, settles written)
     ∧ (Eff.exec (Database.send (Firebase.RootUpdate scoped)) w).(database).(calls)
       = w.(database).(calls) ++ [Firebase.RootUpdate scoped])
  ∧ (∀ scoped tree k,
       scopedAs userId updates scoped →
       match updates !! k with
       | Some None =>
           Firebase.apply_update scoped tree !! Database.expensePath userId k = None
       | Some (Some e) =>
           Firebase.apply_update scoped tree !! Database.expensePath userId k = Some e
       | None =>
           Firebase.apply_update scoped tree !! Database.expensePath userId k
           = tree !! Database.expensePath userId k
       end)
  ∧ (∀ scoped tree p,
       scopedAs userId updates scoped →
       (∀ k, p ≠ Database.expensePath userId k) →
       Firebase.apply_update scoped tree !! p = tree !! p)
  ∧ (∀ signedIn : AuthUser,
       signedIn.(uid) ≠ "" →
       Database.batchUpdateExpenses (Some signedIn) written
         (Database.AUpdates (Some updates)) None w
       = Database.batchUpdateExpenses (Some signedIn) written
           (Database.AUserId signedIn.(uid)) (Some updates) w)
  ∧ (∀ currentUser,
       currentUser = None ∨ currentUser = Some {| uid := "" |} →
       Database.batchUpdateExpenses currentUser written
         (Database.AUpdates (Some updates)) None w
       = (w, Js.Throw (Js.ErrorObject "Not signed in"))).
Proof.
  split_and!.
  - intros currentUser.
    exists (foldl (Database.scope userId updates) ∅ (Database.Object_keys updates)).
    split_and!.
    + apply scoped_spec.
    + apply (batchUpdateExpenses_new_style w currentUser written userId (Some updates)).
    + reflexivity.
  - intros scoped tree k (Hk & _ & _).
    rewrite apply_update_lookup, Hk. by destruct (updates !! k) as [[e|]|].
  - intros scoped tree p (_ & Hp & _) Hother.
    rewrite apply_update_lookup.
    destruct (scoped !! p) as [v|] eqn:E; [|done].
    destruct (Hp p) as (k & -> & _); [by rewrite E|]. by destruct (Hother k).
  - intros [id] Hid. cbn in Hid. apply String.eqb_neq in Hid.
    unfold Database.batchUpdateExpenses. eff_run. by rewrite Hid.
  - intros currentUser [->| ->]; reflexivity.
Qed.

Lemma C3_batchUpdateExpenses_one_scoped_update_witness :
  ∃ scoped,
    (Eff.exec (Database.batchUpdateExpenses None (Js.Fulfilled ())
                 (Database.AUserId "u1") (Some sampleUpdates))
       sampleWorld).(database).(calls)
    = [Firebase.RootUpdate scoped]
    ∧ Firebase.apply_update scoped ∅ !! "users/u1/expenses/k1"
      = Some {| expenseFields := [("amount", Js.VNumber 7%float)] |}
    ∧ Firebase.apply_update scoped
        {[ "users/u1/expenses/k2" := {| expenseFields := [] |} ]}
      !! "users/u1/expenses/k2" = None.
Proof.
  destruct (C3_batchUpdateExpenses_one_scoped_update sampleWorld (Js.Fulfilled ())
              "u1" sampleUpdates) as (Hnew & Hstore & _).
  destruct (Hnew None) as (scoped & Hs & Hrun & Hcalls).
  exists scoped. split_and!.
  - unfold Eff.exec. rewrite Hrun. exact Hcalls.
  - apply (Hstore scoped ∅ "k1" Hs).
  - apply (Hstore scoped _ "k2" Hs).
Defined.

Section PushMany.
Context (pushKey : nat → option string) (userId : string).

Lemma bumpPushed_0 (w : World) : bumpPushed 0 w = w.
Proof. by destruct w as [? ? [] ? ?]. Qed.

Lemma bumpPushed_S (k : nat) (w : World) :
  bumpPushed k (bumpPushed 1 w) = bumpPushed (S k) w.
Proof.
  destruct w as [? ? [] ? ?]. unfold bumpPushed, onDatabase. cbn.
  do 2 f_equal. lia.
Qed.

Lemma pushEach_run (expenses : list Expense) (acc : gmap string Expense) (w : World) :
  Database.pushEach pushKey userId expenses acc w
  = (bumpPushed (length expenses) w,
     Js.Normal (pushedUpdates pushKey userId w.(database).(pushed) expenses acc)).
Proof.
  revert acc w. induction expenses as [|expense rest IH]; intros acc w.
  - cbn. by rewrite bumpPushed_0.
  - cbn [Database.pushEach length pushedUpdates]. eff_run.
    rewrite IH. cbn. by rewrite <- bumpPushed_S.
Qed.




Lemma pushedUpdates_origin (n : nat) (expenses : list Expense)
    (acc : gmap string Expense) (p : string) (expense : Expense) :
  pushedUpdates pushKey userId n expenses acc !! p = Some expense →
  acc !! p = Some expense
  ∨ ∃ i key, expenses !! i = Some expense ∧ pushKey (n + i) = Some key
             ∧ key ≠ "" ∧ p = Database.expensePath userId key.
Proof.
  revert n acc. induction expenses as [|e0 rest IH]; intros n acc H; [by left|].
  cbn [pushedUpdates] in H. apply IH in H as [H|(i & key & Hi & Hk & Hne & ->)].
  - destruct (pushKey n) as [key0|] eqn:E; cbn in H; [|by left].
    destruct (String.eqb_spec key0 "") as [->|Hne0]; cbn in H; [by left|].
    destruct (decide (p = Database.expensePath userId key0)) as [->|Hp].
    + rewrite lookup_insert_eq in H. injection H as ->.
      right. exists 0, key0. by rewrite Nat.add_0_r.
    + rewrite lookup_insert_ne in H by done. by left.
  - right. exists (S i), key. by rewrite <- Nat.add_succ_comm.
Qed.


(** The call taken apart: the reference is made first; if the path is
    accepted, one key is generated per expense and one request sent. *)
Lemma batchPush_run (written : Js.settled ()) (expenses : list Expense) (w : World) :
  Database.batchPushExpensesWithBatch pushKey written expenses userId w
  = if Firebase.validChars userId
    then (Database.send
            (Firebase.RootUpdate
               (Some <$> pushedUpdates pushKey userId w.(database).(pushed) expenses ∅));;
          Database.await written) (bumpPushed (length expenses) w)
    else (w, Js.Throw (Firebase.invalidPath (Database.expensesPath userId))).
Proof.
  unfold Database.batchPushExpensesWithBatch, Database.expensesPath.
  unfold mbind at 1 2, eff_bind at 1 2.
  rewrite ref_run, userPath_valid by reflexivity.
  destruct (Firebase.validChars userId); [|reflexivity].
  by rewrite pushEach_run.
Qed.


End PushMany.

End BatchedWrites.





(* --------------------------------------------------------------------- *)
(** *** The debounced, de-duplicated expense stream                       *)
(* --------------------------------------------------------------------- *)

Section Debounce.
Context {A : Type} (timerFirst : Z → bool) (dueTime : Z).

Abbreviation debounce := (Rx.debounceTime (A:=A) timerFirst dueTime).

Lemma debounce_two (t : Z) (v : A) (next : Z) (v' : A) (rest : Rx.timed A) :
  debounce ((t, v) :: (next, v') :: rest)
  = if Rx.superseded timerFirst dueTime t next
    then debounce ((next, v') :: rest)
    else ((t + dueTime)%Z, v) :: debounce ((next, v') :: rest).
Proof. reflexivity. Qed.


Lemma within_window_superseded (t next : Z) :
  (next < t + dueTime)%Z → Rx.superseded timerFirst dueTime t next = true.
Proof.
  intros H. unfold Rx.superseded. apply orb_true_iff. left. lia.
Qed.







End Debounce.

Section Distinct.
Context {A : Type} (serialize : A → string).

Abbreviation sameSerialized :=
  (λ prev curr : A, String.eqb (serialize prev) (serialize curr)).







End Distinct.


Section ExpenseStream.
Context {SnapshotActions : Type}.
Context (JSON_stringify : SnapshotActions → string).
Context (snapshotChanges : string → Rx.timed SnapshotActions).
Context (timerFirst : Z → bool).

Abbreviation getUserExpenses :=
  (Database.getUserExpenses JSON_stringify snapshotChanges timerFirst).



End ExpenseStream.



(* --------------------------------------------------------------------- *)
(** *** The scenarios of the specification, run on the code               *)
(* --------------------------------------------------------------------- *)

Example normalize_empty_array :
  Settings.normalizeStringList (Js.VArray []) = Js.Normal [].
Proof. reflexivity. Qed.

Example normalize_keyed_object :
  Settings.normalizeStringList
    (Js.VObject [("a", Js.VString "x"); ("b", Js.VString "")])
  = Js.Normal ["x"].
Proof. reflexivity. Qed.

Example normalize_null : Layout.normalizeStringList Js.VNull = Js.Normal [].
Proof. reflexivity. Qed.

Example normalize_number :
  Layout.normalizeStringList (Js.VNumber 42%float) = Js.Normal [].
Proof. reflexivity. Qed.

Example normalize_mixed_array :
  Settings.normalizeStringList
    (Js.VArray [Js.VString "Food"; Js.VNull; Js.VNumber 3%float; Js.VString "";
                Js.VArray [Js.VString "nested"]; Js.VString "Travel"])
  = Js.Normal ["Food"; "Travel"].
Proof. reflexivity. Qed.

Example load_sparse_categories :
  (Eff.exec
     (Settings.getAllUserDetails ["Food"; "Rent"] ["Cash"]
        (Js.Fulfilled
           (Js.VObject
              [("categories",
                Js.VObject [("0", Js.VString "Food"); ("2", Js.VString "Travel")])])))
     sampleWorld).(settings).(categoriesSignal)
  = [ {| value := "Food"; removable := false |};
      {| value := "Travel"; removable := true |} ].
Proof. reflexivity. Qed.

Example batchUpdate_sample_request :
  (Eff.exec
     (Database.batchUpdateExpenses None (Js.Fulfilled ())
        (Database.AUserId "u1") (Some sampleUpdates))
     sampleWorld).(database).(calls)
  = [ Firebase.RootUpdate
        {[ "users/u1/expenses/k1" :=
             Some {| expenseFields := [("amount", Js.VNumber 7%float)] |};
           "users/u1/expenses/k2" := None ]} ].
Proof. vm_compute. reflexivity. Qed.

Example batchUpdate_legacy_signed_out :
  Database.batchUpdateExpenses None (Js.Fulfilled ())
    (Database.AUpdates (Some sampleUpdates)) None sampleWorld
  = (sampleWorld, Js.Throw (Js.ErrorObject "Not signed in")).
Proof. reflexivity. Qed.

Example debounce_burst :
  Rx.debounceTime (λ _, true) 500 (sampleChanges "users/u1/expenses")
  = [(750%Z, "[a]"); (1400%Z, "[a]"); (2000%Z, "[a,b]")].
Proof. reflexivity. Qed.

(* --------------------------------------------------------------------- *)
(** *** Further properties of the two components                          *)
(* --------------------------------------------------------------------- *)

Section Components.
Context (defaultExpenseCategories defaultExpenseTypes : list string).

Abbreviation loadSettings' :=
  (Settings.getAllUserDetails defaultExpenseCategories defaultExpenseTypes).
Abbreviation loadLayout' :=
  (Layout.getAllUserDetails defaultExpenseCategories defaultExpenseTypes).


(** X2.  When the user id is absent or empty, [saveTypes] sends nothing,
    shows [No user id found.], leaves its flag false and changes neither
    list nor service. *)
Theorem X2_saveTypes_without_user (w : World) (saved : Js.settled ()) :
  noUserId w →
  let w' := Eff.exec (Settings.saveTypes saved) w in
  w'.(database) = w.(database)
  ∧ w'.(snackBar)
    = w.(snackBar)
      ++ [{| message := "No user id found."; action := ""; duration := 2000 |}]
  ∧ w'.(settings).(isUpdatingSourceTypes) = false
  ∧ w'.(settings).(sourceTypeSignal) = w.(settings).(sourceTypeSignal)
  ∧ w'.(settings).(sourceTypeSignalOriginal) = w.(settings).(sourceTypeSignalOriginal)
  ∧ w'.(expenseDataService) = w.(expenseDataService)
  ∧ w'.(userService) = w.(userService).
Proof.
  intros Hw%noUserId_uid. eff_run. rewrite Hw. cbn.
  by destruct w as [? ? [] ? ?].
Qed.



(** X5.  A successful load of the settings component goes on with the
    stored categories as normalized when there are any, with the defaults
    otherwise.  The working copy and the committed copy are both that list,
    entry by entry, order and repetitions kept, each flagged removable
    unless it is a default; the data service holds the same values; the
    stored user id becomes the id the read was made for; exactly one message
    is published.  Source types go the same way into the component, without
    a message, and the source types held by the data service are left as they
    were. *)
Theorem X5_settings_load_outcome (w : World) (id : string) (snapshot : Js.value) :
  signedInAs w id →
  let data := Js.nullish snapshot (Js.VObject []) in
  let categories :=
    orDefaults defaultExpenseCategories (normalize (Js.get data "categories")) in
  let types := orDefaults defaultExpenseTypes (normalize (Js.get data "types")) in
  let w' := Eff.exec (loadSettings' (Js.Fulfilled snapshot)) w in
  w'.(settings).(categoriesSignal)
  = map (Settings.categoryOption defaultExpenseCategories) categories
  ∧ w'.(settings).(copyCategoriesSignal) = w'.(settings).(categoriesSignal)
  ∧ map value w'.(settings).(categoriesSignal) = categories
  ∧ w'.(expenseDataService).(categoriesData) = categories
  ∧ w'.(settings).(sourceTypeSignal)
    = map (Settings.sourceTypeOption defaultExpenseTypes) types
  ∧ w'.(settings).(sourceTypeSignalOriginal) = w'.(settings).(sourceTypeSignal)
  ∧ w'.(expenseDataService).(expenseSourcesData)
    = w.(expenseDataService).(expenseSourcesData)
  ∧ w'.(userService).(userId) = Some id
  ∧ w'.(userService).(user) = w.(userService).(user)
  ∧ w'.(database).(categoriesAdded)
    = w.(database).(categoriesAdded) ++ ["Categories Added"]
  ∧ w'.(snackBar) = w.(snackBar)
  ∧ w'.(settings).(isLoadingUserInformation) = false
  ∧ w'.(settings).(isLoadingUserCategories) = false.
Proof.
  intros Hw. pose proof (signedInAs_valid _ _ Hw) as Hv.
  apply signedInAs_truthy in Hw as [Ht Hid]. cbv zeta.
  run_load Ht Hid Hv.
  rewrite ?Settings_normalizeStringList_run. cbn.
  split_and!; try done.
  rewrite map_map. cbn. apply map_id.
Qed.

(** X6.  A successful load of the layout puts in the data service the
    stored categories and source types as normalized, or the defaults where
    there are none, and the stored imported files as normalized; it stores
    the user id, and a first or last name that the snapshot lacks becomes
    the empty string.  It publishes nothing, shows nothing and leaves the
    expense collection and the settings component alone. *)
Theorem X6_layout_load_outcome (w : World) (id : string) (snapshot : Js.value) :
  signedInAs w id →
  let data := Js.nullish snapshot (Js.VObject []) in
  let w' := Eff.exec (loadLayout' (Js.Fulfilled snapshot)) w in
  w'.(expenseDataService).(categoriesData)
  = orDefaults defaultExpenseCategories (normalize (Js.get data "categories"))
  ∧ w'.(expenseDataService).(expenseSourcesData)
    = orDefaults defaultExpenseTypes (normalize (Js.get data "types"))
  ∧ w'.(expenseDataService).(filesImported) = normalize (Js.get data "filesImported")
  ∧ w'.(expenseDataService).(expensesData) = w.(expenseDataService).(expensesData)
  ∧ w'.(userService).(userId) = Some id
  ∧ (∃ details, w'.(userService).(userDetails) = Some details
       ∧ details.(firstName) = Js.nullish (Js.get data "firstName") (Js.VString "")
       ∧ details.(lastName) = Js.nullish (Js.get data "lastName") (Js.VString "")
       ∧ details.(firstName) ≠ Js.VUndefined ∧ details.(firstName) ≠ Js.VNull
       ∧ details.(lastName) ≠ Js.VUndefined ∧ details.(lastName) ≠ Js.VNull)
  ∧ w'.(settings) = w.(settings)
  ∧ w'.(snackBar) = w.(snackBar)
  ∧ w'.(database).(categoriesAdded) = w.(database).(categoriesAdded)
  ∧ w'.(database).(calls) = w.(database).(calls) ++ [Firebase.Once ("users/" +:+ id)].
Proof.
  intros Hw. pose proof (signedInAs_valid _ _ Hw) as Hv.
  apply signedInAs_truthy in Hw as [Ht Hid]. cbv zeta.
  run_load Ht Hid Hv.
  rewrite ?Layout_normalizeStringList_run. cbn.
  split_and!; try done.
  eexists. split; [done|]. cbn.
  split_and!; try done;
    by destruct (Js.get (Js.nullish snapshot (Js.VObject [])) _).
Qed.

Lemma normalize_stored (l : list string) : normalize (stored l) = nonEmptyOnes l.
Proof.
  unfold stored, nonEmptyOnes. cbn [normalize].
  induction l as [|s l IH]; [done|].
  cbn. destruct (decide (s = "")) as [->|Hs]; [exact IH|].
  apply String.eqb_neq in Hs. rewrite Hs. cbn. by rewrite IH.
Qed.

Lemma normalize_readBack (l : list string) : normalize (readBack l) = nonEmptyOnes l.
Proof. destruct l as [|s l]; [done|]. apply normalize_stored. Qed.

Lemma nonEmptyOnes_id (l : list string) :
  Forall (λ s, s ≠ "") l → nonEmptyOnes l = l.
Proof.
  unfold nonEmptyOnes. induction 1 as [|s l Hs _ IH]; [done|].
  cbn. apply String.eqb_neq in Hs. rewrite Hs. cbn. by rewrite IH.
Qed.

Lemma nonEmptyOnes_normalize (raw : Js.value) :
  nonEmptyOnes (normalize raw) = normalize raw.
Proof.
  unfold nonEmptyOnes.
  assert (H : ∀ vs, List.filter (λ s, negb (String.eqb s "")) (keepNonEmptyStrings vs)
                    = keepNonEmptyStrings vs).
  { induction vs as [|v vs IH]; [done|].
    destruct v as [| |b|x|s|elems|props]; cbn; try exact IH.
    destruct (decide (s = "")) as [->|Hs]; [exact IH|].
    cbn. apply String.eqb_neq in Hs. rewrite Hs. cbn. by rewrite IH. }
  destruct raw; cbn [normalize]; try done; apply H.
Qed.

(** X8.  Read back from the store, a list of strings normalizes to its
    non-empty entries, in order; so a list that [normalizeStringList] has
    produced comes back unchanged, and so does any list without empty
    strings. *)
Theorem X8_normalize_round_trip (l : list string) (raw : Js.value) :
  Settings.normalizeStringList (stored l) = Js.Normal (nonEmptyOnes l)
  ∧ Layout.normalizeStringList (stored l) = Js.Normal (nonEmptyOnes l)
  ∧ (∀ out, Settings.normalizeStringList raw = Js.Normal out →
            Settings.normalizeStringList (stored out) = Js.Normal out)
  ∧ (Forall (λ s, s ≠ "") l → Settings.normalizeStringList (stored l) = Js.Normal l)
  ∧ (length (nonEmptyOnes l) ≤ length l)%nat.
Proof.
  rewrite ?Settings_normalizeStringList_run, ?Layout_normalizeStringList_run.
  rewrite normalize_stored. split_and!; [done|done| | |].
  - intros out [= <-].
    by rewrite Settings_normalizeStringList_run, normalize_stored,
      nonEmptyOnes_normalize.
  - intros Hl. rewrite ?Settings_normalizeStringList_run, ?normalize_stored.
    by rewrite nonEmptyOnes_id.
  - unfold nonEmptyOnes. apply List.filter_length_le.
Qed.

Lemma settings_load_categories (w : World) (id : string) (snapshot : Js.value) :
  signedInAs w id →
  let categories :=
    orDefaults defaultExpenseCategories
      (normalize (Js.get (Js.nullish snapshot (Js.VObject [])) "categories")) in
  let w' := Eff.exec (loadSettings' (Js.Fulfilled snapshot)) w in
  w'.(settings).(copyCategoriesSignal) = w'.(settings).(categoriesSignal)
  ∧ map value w'.(settings).(categoriesSignal) = categories
  ∧ w'.(expenseDataService).(categoriesData) = categories.
Proof.
  intros Hw. pose proof (signedInAs_valid _ _ Hw) as Hv.
  apply signedInAs_truthy in Hw as [Ht Hid]. cbv zeta.
  run_load Ht Hid Hv.
  rewrite ?Settings_normalizeStringList_run. cbn.
  split_and!; try done.
  rewrite map_map. cbn. apply map_id.
Qed.

Lemma saveCategories_keeps_users (w : World) (saved : Js.settled ()) :
  (Eff.exec (Settings.saveCategories saved) w).(userService) = w.(userService).
Proof.
  eff_run.
  destruct (Js.truthy_str
              (Js.or_str (uid <$> w.(userService).(user)) w.(userService).(userId)));
    cbn; [|by destruct w as [[] ? ? ? ?]].
  rewrite saveNewCategories_run. destruct (Firebase.validChars _); eff_run.
  - destruct saved; cbn; by destruct w as [[] ? ? ? ?].
  - by destruct w as [[] ? ? ? ?].
Qed.

Lemma signedInAs_users (w w' : World) (id : string) :
  w'.(userService) = w.(userService) → signedInAs w id → signedInAs w' id.
Proof.
  unfold signedInAs, Eff.result. rewrite !currentUid_run. cbn. by intros ->.
Qed.

(** X9.  Save, then load what was saved.  The list read back is tied to
    the request the save has logged: [items] is what the last request wrote
    at [users/{uid}/categories], and the snapshot holds what the store hands
    back for it.  Then [items] is the working copy as it was at the save, and
    after the load the categories of the component and of the data service
    are its non-empty entries, in order, or the defaults when it has none; a
    saved list that is not empty and holds no empty string comes back as it
    was saved, in both copies. *)
Theorem X9_save_then_load_round_trip
    (w : World) (id : string) (snapshot : Js.value) (items : list string) :
  signedInAs w id →
  let saved := map value w.(settings).(categoriesSignal) in
  let w1 := Eff.exec (Settings.saveCategories (Js.Fulfilled ())) w in
  let w2 := Eff.exec (loadSettings' (Js.Fulfilled snapshot)) w1 in
  last w1.(database).(calls)
  = Some (Firebase.SetList ("users/" +:+ id +:+ "/categories") items) →
  Js.get (Js.nullish snapshot (Js.VObject [])) "categories" = readBack items →
  items = saved
  ∧ map value w2.(settings).(categoriesSignal)
    = orDefaults defaultExpenseCategories (nonEmptyOnes saved)
  ∧ w2.(expenseDataService).(categoriesData)
    = orDefaults defaultExpenseCategories (nonEmptyOnes saved)
  ∧ (saved ≠ [] → Forall (λ s, s ≠ "") saved →
     map value w2.(settings).(categoriesSignal) = saved
     ∧ map value w2.(settings).(copyCategoriesSignal) = saved).
Proof.
  intros Hw. cbv zeta. intros Hlast Hsnap.
  rewrite (saveCategories_sends w id (Js.Fulfilled ()) Hw), last_snoc in Hlast.
  injection Hlast as <-.
  assert (Hw1 : signedInAs (Eff.exec (Settings.saveCategories (Js.Fulfilled ())) w) id).
  { eapply signedInAs_users; [apply saveCategories_keeps_users|done]. }
  destruct (settings_load_categories _ id snapshot Hw1) as (Hcopy & Hvalues & Hdata).
  cbv zeta in Hcopy, Hvalues, Hdata.
  rewrite Hsnap, normalize_readBack in Hvalues, Hdata.
  split_and!; [done|done|done|].
  intros Hne Hall. rewrite Hcopy, Hvalues.
  rewrite (nonEmptyOnes_id _ Hall). unfold orDefaults.
  by destruct (map value (categoriesSignal (settings w))).
Qed.

Lemma settings_load_state (w : World) (id : string) (snapshot : Js.value) :
  signedInAs w id →
  let data := Js.nullish snapshot (Js.VObject []) in
  let categories :=
    orDefaults defaultExpenseCategories (normalize (Js.get data "categories")) in
  let types := orDefaults defaultExpenseTypes (normalize (Js.get data "types")) in
  let w' := Eff.exec (loadSettings' (Js.Fulfilled snapshot)) w in
  w'.(settings)
  = {| categoriesSignal := map (Settings.categoryOption defaultExpenseCategories) categories;
       copyCategoriesSignal :=
         map (Settings.categoryOption defaultExpenseCategories) categories;
       sourceTypeSignal := map (Settings.sourceTypeOption defaultExpenseTypes) types;
       sourceTypeSignalOriginal :=
         map (Settings.sourceTypeOption defaultExpenseTypes) types;
       isLoadingUserInformation := false;
       isLoadingUserCategories := false;
       isUpdatingCategories := w.(settings).(isUpdatingCategories);
       isUpdatingSourceTypes := w.(settings).(isUpdatingSourceTypes) |}
  ∧ w'.(expenseDataService)
    = {| expensesData := w.(expenseDataService).(expensesData);
         timeFrameFilter := w.(expenseDataService).(timeFrameFilter);
         filesImported := w.(expenseDataService).(filesImported);
         categoriesData := categories;
         expenseSourcesData := w.(expenseDataService).(expenseSourcesData) |}
  ∧ w'.(userService)
    = {| user := w.(userService).(user);
         userId := Some id;
         userDetails := w.(userService).(userDetails) |}.
Proof.
  intros Hw. pose proof (signedInAs_valid _ _ Hw) as Hv.
  apply signedInAs_truthy in Hw as [Ht Hid]. cbv zeta.
  run_load Ht Hid Hv.
  by rewrite ?Settings_normalizeStringList_run.
Qed.

Lemma signedInAs_stored_id (w w' : World) (id : string) :
  signedInAs w id →
  w'.(userService).(user) = w.(userService).(user) →
  w'.(userService).(userId) = Some id →
  signedInAs w' id.
Proof.
  intros Hw Hu Hi. pose proof Hw as (_ & Hne & Hv).
  apply signedInAs_truthy in Hw as [Ht Hid].
  split; [|done]. unfold Eff.result. rewrite currentUid_run. cbn.
  rewrite Hu, Hi. f_equal. unfold Js.or_str in *.
  by destruct (Js.truthy_str (uid <$> user (userService w))).
Qed.

(** X10.  Loading twice is loading once: a second successful load of the
    same snapshot leaves the settings component, the data service and the
    user service exactly as the first load left them. *)
Theorem X10_settings_load_idempotent (w : World) (id : string) (snapshot : Js.value) :
  signedInAs w id →
  let w1 := Eff.exec (loadSettings' (Js.Fulfilled snapshot)) w in
  let w2 := Eff.exec (loadSettings' (Js.Fulfilled snapshot)) w1 in
  signedInAs w1 id
  ∧ w2.(settings) = w1.(settings)
  ∧ w2.(expenseDataService) = w1.(expenseDataService)
  ∧ w2.(userService) = w1.(userService).
Proof.
  intros Hw. cbv zeta.
  destruct (settings_load_state w id snapshot Hw) as (Hs & Hd & Hu).
  cbv zeta in Hs, Hd, Hu.
  assert (Hw1 : signedInAs (Eff.exec (loadSettings' (Js.Fulfilled snapshot)) w) id).
  { apply (signedInAs_stored_id w); [done| |]; by rewrite Hu. }
  split; [done|].
  destruct (settings_load_state _ id snapshot Hw1) as (Hs2 & Hd2 & Hu2).
  cbv zeta in Hs2, Hd2, Hu2.
  rewrite Hs2, Hd2, Hu2, Hs, Hd, Hu. done.
Qed.

(** X11.  A save or a load throws in one case only, out of [ref]: with
    no user id, or with one for which the request is made, it returns,
    however the store settles, a failure of the store or a missing user id
    ending in a message; with a user id the store refuses in a path, it ends
    by the throw of [ref], and the layout's load has changed nothing by
    then. *)
Theorem X11_operations_throw_only_from_ref
    (w : World) (saved : Js.settled ()) (loaded : Js.settled Js.value) :
  (noUserId w ∨ (∃ id, signedInAs w id) →
     Eff.result (Settings.saveCategories saved) w = Js.Normal ()
     ∧ Eff.result (Settings.saveTypes saved) w = Js.Normal ()
     ∧ Eff.result (loadSettings' loaded) w = Js.Normal ()
     ∧ Eff.result (loadLayout' loaded) w = Js.Normal ())
  ∧ (∀ id, refusedAs w id →
       Eff.result (Settings.saveCategories saved) w
       = Js.Throw (Firebase.invalidPath ("users/" +:+ id +:+ "/categories"))
       ∧ Eff.result (Settings.saveTypes saved) w
         = Js.Throw (Firebase.invalidPath ("users/" +:+ id +:+ "/types"))
       ∧ Eff.result (loadSettings' loaded) w
         = Js.Throw (Firebase.invalidPath ("users/" +:+ id))
       ∧ loadLayout' loaded w
         = (w, Js.Throw (Firebase.invalidPath ("users/" +:+ id)))).
Proof.
  split.
  - intros Hw. split_and!.
    + by apply saveCategories_flag.
    + by apply saveTypes_flag.
    + destruct Hw as [Hw|[id Hw]].
      * unfold Eff.result. by rewrite getAllUserDetails_short_circuit.
      * by apply (getAllUserDetails_flags _ _ w id).
    + destruct Hw as [Hw|[id Hw]].
      * unfold Eff.result. by rewrite layout_short_circuit.
      * pose proof (signedInAs_valid _ _ Hw) as Hv.
        apply signedInAs_truthy in Hw as [Ht Hid].
        run_load Ht Hid Hv. destruct loaded; [|done].
        by rewrite ?Layout_normalizeStringList_run.
  - intros id Hw. unfold Eff.result.
    rewrite (saveCategories_refused w id), (saveTypes_refused w id),
      (getAllUserDetails_refused _ _ w id), (layout_refused _ _ w id) by done.
    done.
Qed.

(** X12.  [saveCategories] is its call followed by the settlement of the
    write.  Between the two the flag is true and the store has been sent the
    working copy as it was at the call.  When the working copy is edited in
    between and the write is then accepted, the committed copy and the data
    service take the edited list, which is not the list the store was sent;
    when the write is rejected the edit is kept and nothing is committed. *)
Theorem X12_edit_while_save_in_flight
    (w : World) (id : string) (edited : list ChipOption) (saved : Js.settled ()) :
  signedInAs w id →
  let sent := map value w.(settings).(categoriesSignal) in
  let pending := Eff.exec InFlight.saveCategories_call w in
  let settled :=
    Eff.exec (InFlight.saveCategories_settle saved)
      (Eff.exec (InFlight.edit edited) pending) in
  Settings.saveCategories saved w
  = (started ← InFlight.saveCategories_call;
     if started : bool then InFlight.saveCategories_settle saved else mret ()) w
  ∧ Eff.result InFlight.saveCategories_call w = Js.Normal true
  ∧ pending.(settings).(isUpdatingCategories) = true
  ∧ pending.(database).(calls)
    = w.(database).(calls)
      ++ [Firebase.SetList ("users/" +:+ id +:+ "/categories") sent]
  ∧ settled.(database).(calls) = pending.(database).(calls)
  ∧ settled.(settings).(categoriesSignal) = edited
  ∧ settled.(settings).(isUpdatingCategories) = false
  ∧ match saved with
    | Js.Fulfilled _ =>
        settled.(settings).(copyCategoriesSignal) = edited
        ∧ settled.(expenseDataService).(categoriesData) = map value edited
    | Js.Rejected _ =>
        settled.(settings).(copyCategoriesSignal) = w.(settings).(copyCategoriesSignal)
        ∧ settled.(expenseDataService) = w.(expenseDataService)
    end.
Proof.
  intros Hw. pose proof (signedInAs_valid _ _ Hw) as Hv.
  apply signedInAs_truthy in Hw as [Ht Hid]. cbv zeta.
  unfold InFlight.saveCategories_call, InFlight.saveCategories_settle, InFlight.edit.
  run_save Ht Hid Hv.
  split_and!; try done; by destruct saved.
Qed.

(** X13.  The fulfilment handler of the layout's load does not look at the
    session: run after a completed sign-out, for a read that was still
    pending, it stores the old user id again and refills the data service
    with that user's categories, source types and imported files, while no
    user is signed in. *)
Theorem X13_pending_load_refills_after_logout
    (w : World) (old : string) (snapshot : Js.value) :
  let data := Js.nullish snapshot (Js.VObject []) in
  let out := Eff.exec (Layout.logout defaultExpenseCategories defaultExpenseTypes
                         (Js.Fulfilled ())) w in
  let w' := Eff.exec (Layout.getAllUserDetails_then defaultExpenseCategories
                        defaultExpenseTypes old snapshot) out in
  out.(expenseDataService).(filesImported) = []
  ∧ w'.(userService).(user) = None
  ∧ w'.(userService).(userId) = Some old
  ∧ w'.(expenseDataService).(filesImported) = normalize (Js.get data "filesImported")
  ∧ w'.(expenseDataService).(categoriesData)
    = orDefaults defaultExpenseCategories (normalize (Js.get data "categories"))
  ∧ w'.(expenseDataService).(expenseSourcesData)
    = orDefaults defaultExpenseTypes (normalize (Js.get data "types"))
  ∧ w'.(expenseDataService).(expensesData) = [].
Proof.
  cbv zeta. eff_unfold. by rewrite ?Layout_normalizeStringList_run.
Qed.

End Components.

(* --------------------------------------------------------------------- *)
(** *** Further properties of the multi-path writes                       *)
(* --------------------------------------------------------------------- *)

Section MoreBatchedWrites.

Lemma Object_keys_empty {V} : Database.Object_keys (∅ : gmap string V) = [].
Proof. unfold Database.Object_keys. by rewrite map_to_list_empty. Qed.

Lemma apply_update_empty (tree : gmap string Expense) :
  Firebase.apply_update ∅ tree = tree.
Proof. apply map_eq. intros p. by rewrite apply_update_lookup, lookup_empty. Qed.

(** X14.  With nothing to write the two batch operations still send their
    one request, a root update without entries, which leaves the store as it
    is: [batchUpdateExpenses] when the mapping is missing or empty, in the
    new style and in the legacy style, and [batchPushExpensesWithBatch] on
    an empty list, which generates no key.  The push makes its reference
    even then: for a user id the store refuses in a path it throws and sends
    nothing, empty list or not. *)
Theorem X14_empty_batches_send_empty_update
    (w : World) (currentUser : option AuthUser) (written : Js.settled ())
    (userId : string) (pushKey : nat → option string) :
  Database.batchUpdateExpenses currentUser written (Database.AUserId userId) None w
  = (Eff.exec (Database.send (Firebase.RootUpdate ∅)) w, settles written)
  ∧ Database.batchUpdateExpenses currentUser written
      (Database.AUserId userId) (Some ∅) w
    = (Eff.exec (Database.send (Firebase.RootUpdate ∅)) w, settles written)
  ∧ (∀ signedIn : AuthUser,
       signedIn.(uid) ≠ "" →
       Database.batchUpdateExpenses (Some signedIn) written
         (Database.AUpdates None) None w
       = (Eff.exec (Database.send (Firebase.RootUpdate ∅)) w, settles written))
  ∧ (Firebase.validChars userId = true →
     Database.batchPushExpensesWithBatch pushKey written [] userId w
     = (Eff.exec (Database.send (Firebase.RootUpdate ∅)) w, settles written))
  ∧ (Firebase.validChars userId = false →
     Database.batchPushExpensesWithBatch pushKey written [] userId w
     = (w, Js.Throw (Firebase.invalidPath (Database.expensesPath userId))))
  ∧ (Eff.exec (Database.send (Firebase.RootUpdate ∅)) w).(database).(pushed)
    = w.(database).(pushed)
  ∧ (Eff.exec (Database.send (Firebase.RootUpdate ∅)) w).(database).(calls)
    = w.(database).(calls) ++ [Firebase.RootUpdate ∅]
  ∧ (∀ tree, Firebase.apply_update ∅ tree = tree).
Proof.
  split_and!.
  - rewrite batchUpdateExpenses_new_style.
    change (default ∅ None) with (∅ : gmap string (option Expense)).
    by rewrite Object_keys_empty.
  - rewrite batchUpdateExpenses_new_style.
    change (default ∅ (Some ∅)) with (∅ : gmap string (option Expense)).
    by rewrite Object_keys_empty.
  - intros [id] Hid. cbn in Hid. apply String.eqb_neq in Hid.
    unfold Database.batchUpdateExpenses. eff_run. rewrite Hid. cbn.
    change (default ∅ None) with (∅ : gmap string (option Expense)).
    rewrite Object_keys_empty. by destruct written.
  - intros Hv. rewrite batchPush_run, Hv. cbn [length pushedUpdates].
    rewrite bumpPushed_0, fmap_empty. eff_run. by destruct written.
  - intros Hv. by rewrite batchPush_run, Hv.
  - reflexivity.
  - reflexivity.
  - apply apply_update_empty.
Qed.

Section PushAnyKeys.
Context (pushKey : nat → option string) (userId : string).

Lemma pushedUpdates_size_le (n : nat) (expenses : list Expense)
    (acc : gmap string Expense) :
  (size (pushedUpdates pushKey userId n expenses acc) ≤ size acc + length expenses)%nat.
Proof.
  revert n acc. induction expenses as [|e0 rest IH]; intros n acc; [cbn; lia|].
  cbn [pushedUpdates length].
  match goal with |- (size (pushedUpdates _ _ _ _ ?acc') ≤ _)%nat =>
    pose proof (IH (S n) acc') as Hrest;
    assert (Hstep : (size acc' ≤ S (size acc))%nat)
  end.
  { destruct (Js.truthy_str (pushKey n)); [|lia].
    rewrite map_size_insert. destruct (acc !! _); cbn; lia. }
  lia.
Qed.

Lemma pushedUpdates_no_key (n : nat) (expenses : list Expense)
    (acc : gmap string Expense) :
  (∀ i, i < length expenses → Js.truthy_str (pushKey (n + i)) = false) →
  pushedUpdates pushKey userId n expenses acc = acc.
Proof.
  revert n acc. induction expenses as [|e0 rest IH]; intros n acc Hno; [done|].
  cbn [pushedUpdates]. rewrite <- (Nat.add_0_r n) at 2.
  rewrite Hno by (cbn; lia). apply IH.
  intros i Hi. rewrite Nat.add_succ_comm. apply Hno. cbn. lia.
Qed.

(** X15.  For a user id the store accepts in a path, and whatever keys
    the client makes, [batchPushExpensesWithBatch] sends exactly one request
    and asks for exactly one key per expense.  The request never deletes
    anything and has at most one entry per expense; each entry is an input
    expense under the path of the non-empty key made for it.  An expense
    whose key comes out null or empty is left out without notice: if every
    key does, the request is empty. *)
Theorem X15_batchPush_for_any_keys
    (w : World) (written : Js.settled ()) (expenses : list Expense) :
  Firebase.validChars userId = true →
  ∃ updates : gmap string Expense,
    Database.batchPushExpensesWithBatch pushKey written expenses userId w
    = (Eff.exec (Database.send (Firebase.RootUpdate (Some <$> updates)))
         (bumpPushed (length expenses) w),
       settles written)
    ∧ (size updates ≤ length expenses)%nat
    ∧ (∀ p, (Some <$> updates) !! p ≠ Some None)
    ∧ (∀ p expense,
         updates !! p = Some expense →
         ∃ i key, expenses !! i = Some expense
                  ∧ pushKey (w.(database).(pushed) + i) = Some key
                  ∧ key ≠ ""
                  ∧ p = Database.expensePath userId key)
    ∧ ((∀ i, i < length expenses →
             pushKey (w.(database).(pushed) + i) = None
             ∨ pushKey (w.(database).(pushed) + i) = Some "") →
       updates = ∅).
Proof.
  intros Hv.
  exists (pushedUpdates pushKey userId w.(database).(pushed) expenses ∅).
  split_and!.
  - rewrite batchPush_run, Hv. eff_run. by destruct written.
  - etrans; [apply pushedUpdates_size_le|]. by rewrite map_size_empty.
  - intros p. rewrite lookup_fmap. by destruct (_ !! p).
  - intros p expense Hp.
    apply pushedUpdates_origin in Hp as [Hp|(i & key & Hi & Hk & Hne & ->)].
    + by rewrite lookup_empty in Hp.
    + by exists i, key.
  - intros Hno. apply pushedUpdates_no_key.
    intros i Hi. by destruct (Hno i Hi) as [-> | ->].
Qed.

End PushAnyKeys.

Lemma X15_batchPush_for_any_keys_witness :
  Firebase.validChars "u1" = true
  ∧ ∃ updates : gmap string Expense,
      (Eff.exec
         (Database.batchPushExpensesWithBatch (λ _, None) (Js.Fulfilled ())
            [ {| expenseFields := [("amount", Js.VNumber 3%float)] |} ] "u1")
         sampleWorld).(database).(calls)
      = [Firebase.RootUpdate (Some <$> updates)]
      ∧ updates = ∅.
Proof.
  split; [reflexivity|].
  destruct (X15_batchPush_for_any_keys (λ _, None) "u1" sampleWorld (Js.Fulfilled ())
              [ {| expenseFields := [("amount", Js.VNumber 3%float)] |} ] eq_refl)
    as (updates & Hrun & _ & _ & _ & Hempty).
  exists updates. split.
  - unfold Eff.exec. rewrite Hrun. reflexivity.
  - apply Hempty. intros i _. by left.
Defined.

Lemma segment_split (a b r1 r2 : string) :
  segment a = true → segment b = true →
  a +:+ String slash r1 = b +:+ String slash r2 → a = b ∧ r1 = r2.
Proof.
  revert b. induction a as [|c a IH]; intros [|c' b] Ha Hb E; cbn in *.
  - by injection E as ->.
  - injection E as <- _. apply andb_true_iff in Hb as [Hb _].
    by rewrite Ascii.eqb_refl in Hb.
  - injection E as -> _. apply andb_true_iff in Ha as [Ha _].
    by rewrite Ascii.eqb_refl in Ha.
  - injection E as -> E.
    apply andb_true_iff in Ha as [_ Ha]. apply andb_true_iff in Hb as [_ Hb].
    destruct (IH b Ha Hb E) as [-> ->]. done.
Qed.

Lemma expensePath_user (uid1 uid2 k1 k2 : string) :
  segment uid1 = true → segment uid2 = true →
  Database.expensePath uid1 k1 = Database.expensePath uid2 k2 → uid1 = uid2.
Proof.
  intros H1 H2 E. unfold Database.expensePath in E.
  apply String.app_inj in E.
  by apply (segment_split uid1 uid2 ("expenses/" +:+ k1) ("expenses/" +:+ k2)).
Qed.

(** X16.  A batch for one user stays under that user's node: when user ids
    are single path segments, the root update that [batchUpdateExpenses]
    sends for [userId] has no entry at any expense path of another user, so
    the store's records of every other user are as before. *)
Theorem X16_batchUpdate_leaves_other_users
    (w : World) (currentUser : option AuthUser) (written : Js.settled ())
    (userId other : string) (updates : gmap string (option Expense)) :
  segment userId = true → segment other = true → userId ≠ other →
  ∃ scoped,
    (Eff.exec (Database.batchUpdateExpenses currentUser written
                 (Database.AUserId userId) (Some updates)) w).(database).(calls)
    = w.(database).(calls) ++ [Firebase.RootUpdate scoped]
    ∧ ∀ key tree,
        scoped !! Database.expensePath other key = None
        ∧ Firebase.apply_update scoped tree !! Database.expensePath other key
          = tree !! Database.expensePath other key.
Proof.
  intros Hu Ho Hne.
  exists (foldl (Database.scope userId updates) ∅ (Database.Object_keys updates)).
  split.
  - unfold Eff.exec. by rewrite batchUpdateExpenses_new_style.
  - intros key tree.
    assert (Hnone : foldl (Database.scope userId updates) ∅
                      (Database.Object_keys updates)
                    !! Database.expensePath other key = None).
    { apply eq_None_not_Some. intros Hsome.
      destruct (scoped_spec userId updates) as (_ & Hp & _).
      destruct (Hp _ Hsome) as (k & E & _).
      apply Hne. symmetry. by apply expensePath_user in E. }
    split; [done|]. by rewrite apply_update_lookup, Hnone.
Qed.

Lemma X16_batchUpdate_leaves_other_users_witness :
  ∃ scoped,
    (Eff.exec (Database.batchUpdateExpenses None (Js.Fulfilled ())
                 (Database.AUserId "u1") (Some sampleUpdates))
       sampleWorld).(database).(calls)
    = [Firebase.RootUpdate scoped]
    ∧ scoped !! "users/u2/expenses/k1" = None.
Proof.
  destruct (X16_batchUpdate_leaves_other_users sampleWorld None (Js.Fulfilled ())
              "u1" "u2" sampleUpdates) as (scoped & Hcalls & Hother);
    [reflexivity|reflexivity|discriminate|].
  exists scoped. split; [exact Hcalls|].
  apply (Hother "k1" ∅).
Defined.

(** X17.  Two batches for the same user, one after the other, leave the
    store as the single batch of the merged mapping does, the later batch
    winning on the keys that both name. *)
Theorem X17_batches_compose
    (userId : string) (first second : gmap string (option Expense))
    (tree : gmap string Expense) :
  let scopedOf := λ updates : gmap string (option Expense),
    foldl (Database.scope userId updates) ∅ (Database.Object_keys updates) in
  (∀ (w : World) currentUser written updates,
     Database.batchUpdateExpenses currentUser written
       (Database.AUserId userId) (Some updates) w
     = (Eff.exec (Database.send (Firebase.RootUpdate (scopedOf updates))) w,
        settles written))
  ∧ Firebase.apply_update (scopedOf second) (Firebase.apply_update (scopedOf first) tree)
    = Firebase.apply_update (scopedOf (second ∪ first)) tree.
Proof.
  cbv zeta. split.
  - intros. apply batchUpdateExpenses_new_style.
  - destruct (scoped_spec userId first) as (Hk1 & Hp1 & _).
    destruct (scoped_spec userId second) as (Hk2 & Hp2 & _).
    destruct (scoped_spec userId (second ∪ first)) as (Hk12 & Hp12 & _).
    cbv zeta in *.
    apply map_eq. intros p. rewrite !apply_update_lookup.
    assert (Hpath : ∀ k, p = Database.expensePath userId k →
      match foldl (Database.scope userId second) ∅ (Database.Object_keys second) !! p with
      | Some (Some e) => Some e
      | Some None => None
      | None =>
          match foldl (Database.scope userId first) ∅ (Database.Object_keys first) !! p with
          | Some (Some e) => Some e
          | Some None => None
          | None => tree !! p
          end
      end
      = match foldl (Database.scope userId (second ∪ first)) ∅
                (Database.Object_keys (second ∪ first)) !! p with
        | Some (Some e) => Some e
        | Some None => None
        | None => tree !! p
        end).
    { intros k ->. rewrite Hk1, Hk2, Hk12, lookup_union.
      by destruct (second !! k) as [[?|]|], (first !! k) as [[?|]|]. }
    destruct (foldl (Database.scope userId second) ∅ (Database.Object_keys second) !! p)
      as [v2|] eqn:E2.
    { destruct (Hp2 p) as (k & Hk & _); [by rewrite E2|].
      exact (Hpath k Hk). }
    destruct (foldl (Database.scope userId first) ∅ (Database.Object_keys first) !! p)
      as [v1|] eqn:E1.
    { destruct (Hp1 p) as (k & Hk & _); [by rewrite E1|].
      exact (Hpath k Hk). }
    destruct (foldl (Database.scope userId (second ∪ first)) ∅
                (Database.Object_keys (second ∪ first)) !! p) as [v12|] eqn:E12;
      [|done].
    destruct (Hp12 p) as (k & Hk & _); [by rewrite E12|].
    exact (Hpath k Hk).
Qed.

End MoreBatchedWrites.

(* --------------------------------------------------------------------- *)
(** *** Further properties of the expense stream                          *)
(* --------------------------------------------------------------------- *)

Section MoreDebounce.
Context {A : Type} (timerFirst : Z → bool) (dueTime : Z).

Lemma last_cons_default {B} (a d : B) (l : list B) :
  List.last (a :: l) d = List.last l a.
Proof.
  revert a d. induction l as [|b rest IH]; intros a d; [done|].
  change (List.last (a :: b :: rest) d) with (List.last (b :: rest) d).
  by rewrite (IH b d), (IH b a).
Qed.

Lemma lastValue_cons (fallback : A) (t : Z) (v : A) (source : Rx.timed A) :
  lastValue fallback ((t, v) :: source) = lastValue v source.
Proof.
  unfold lastValue. rewrite last_cons_default.
  destruct source as [|b rest]; [done|]. by rewrite !last_cons_default.
Qed.

Lemma lastValue_nonempty (a b : A) (source : Rx.timed A) :
  source ≠ [] → lastValue a source = lastValue b source.
Proof. destruct source as [|[t v] rest]; [done|]. by rewrite !lastValue_cons. Qed.

Lemma debounce_nonempty (source : Rx.timed A) :
  source ≠ [] → Rx.debounceTime timerFirst dueTime source ≠ [].
Proof.
  induction source as [|[t v] rest IH]; [done|]. intros _.
  destruct rest as [|[next v'] rest]; [done|].
  rewrite debounce_two. destruct (Rx.superseded _ _ _ _); [by apply IH|done].
Qed.

Lemma debounce_lastValue (fallback : A) (source : Rx.timed A) :
  lastValue fallback (Rx.debounceTime timerFirst dueTime source)
  = lastValue fallback source.
Proof.
  revert fallback. induction source as [|[t v] rest IH]; intros fallback; [done|].
  destruct rest as [|[next v'] rest]; [done|].
  rewrite debounce_two, (lastValue_cons fallback t v).
  destruct (Rx.superseded _ _ _ _).
  - rewrite IH. by apply lastValue_nonempty.
  - by rewrite lastValue_cons, IH.
Qed.

Lemma debounce_slow (source : Rx.timed A) :
  slow dueTime source →
  Rx.debounceTime timerFirst dueTime source = delayed dueTime <$> source.
Proof.
  induction source as [|[t v] rest IH]; [done|].
  destruct rest as [|[next v'] rest]; [done|].
  intros [Hgap Hrest]. rewrite debounce_two, (fmap_cons _ (t, v)), <- (IH Hrest).
  unfold Rx.superseded.
  destruct (Z.ltb_spec next (t + dueTime)); [lia|].
  destruct (Z.eqb_spec next (t + dueTime)); [lia|]. done.
Qed.

Lemma debounce_of_burst (source : Rx.timed A) (t : Z) (v : A) :
  burst dueTime source → last source = Some (t, v) →
  Rx.debounceTime timerFirst dueTime source = [((t + dueTime)%Z, v)].
Proof.
  induction source as [|[t0 v0] rest IH]; [done|]. intros Hb Hlast.
  destruct rest as [|[next v'] rest].
  - by injection Hlast as -> ->.
  - destruct Hb as [Hgap Hrest].
    rewrite debounce_two, within_window_superseded by done.
    by apply IH.
Qed.

End MoreDebounce.

Section MoreDistinct.
Context {A : Type} (serialize : A → string).

Abbreviation sameText :=
  (λ prev curr : A, String.eqb (serialize prev) (serialize curr)).

Lemma distinctAfter_lastValue (prev : A) (source : Rx.timed A) :
  serialize (lastValue prev (Rx.distinctAfter sameText prev source))
  = serialize (lastValue prev source).
Proof.
  revert prev. induction source as [|[t curr] rest IH]; intros prev; [done|].
  cbn [Rx.distinctAfter]. rewrite (lastValue_cons prev t curr).
  destruct (String.eqb_spec (serialize prev) (serialize curr)) as [E|E].
  - rewrite IH. destruct rest as [|[t' v'] rest]; [done|].
    by rewrite !lastValue_cons.
  - by rewrite lastValue_cons, IH.
Qed.

Lemma distinctUntilChanged_lastValue (fallback : A) (source : Rx.timed A) :
  serialize (lastValue fallback
               (Rx.distinctUntilChanged sameText source))
  = serialize (lastValue fallback source).
Proof.
  destruct source as [|[t first] rest]; [done|].
  cbn [Rx.distinctUntilChanged]. rewrite !lastValue_cons.
  apply distinctAfter_lastValue.
Qed.

Lemma distinctUntilChanged_differing (source : Rx.timed A) :
  Sorted (differ serialize) source →
  Rx.distinctUntilChanged sameText source = source.
Proof.
  destruct source as [|[t first] rest]; [done|]. cbn [Rx.distinctUntilChanged].
  intros Hs. f_equal. revert t first Hs.
  induction rest as [|[t' curr] rest IH]; intros t first Hs; [done|].
  apply Sorted_inv in Hs as [Hrest Hhd]. apply HdRel_inv in Hhd.
  cbn [Rx.distinctAfter]. unfold differ in Hhd. cbn in Hhd.
  apply String.eqb_neq in Hhd. rewrite Hhd. f_equal. by apply (IH t').
Qed.

Lemma differ_delayed (dueTime : Z) (source : Rx.timed A) :
  Sorted (differ serialize) source →
  Sorted (differ serialize) (delayed dueTime <$> source).
Proof.
  induction 1 as [|a l Hl IH Hhd]; [constructor|].
  rewrite fmap_cons. constructor; [done|].
  destruct Hhd as [|b l' Hab]; constructor. exact Hab.
Qed.

End MoreDistinct.

Section MoreExpenseStream.
Context {SnapshotActions : Type}.
Context (JSON_stringify : SnapshotActions → string).
Context (snapshotChanges : string → Rx.timed SnapshotActions).
Context (timerFirst : Z → bool).

Abbreviation getUserExpenses' :=
  (Database.getUserExpenses JSON_stringify snapshotChanges timerFirst).

(** X18.  A slow stream of changing states is delivered in full: when
    consecutive changes arrive more than 500 apart and each serializes
    differently from the one before, [getUserExpenses] delivers every one of
    them, 500 after it arrived. *)
Theorem X18_slow_changing_stream_delivered_in_full (userId : string) :
  let source := snapshotChanges (Database.expensesPath userId) in
  slow 500 source →
  Sorted (differ JSON_stringify) source →
  getUserExpenses' userId = delayed 500 <$> source.
Proof.
  cbv zeta. intros Hslow Hdiff. unfold Database.getUserExpenses.
  rewrite debounce_slow by done.
  apply (distinctUntilChanged_differing JSON_stringify).
  by apply differ_delayed.
Qed.

(** X19.  A burst is delivered as one batch: when every change arrives less
    than 500 after the one before, [getUserExpenses] delivers exactly one
    batch, the change that arrived last, 500 after the time at which that
    last change arrived, whether or not an earlier change of the burst
    carried the same state. *)
Theorem X19_burst_delivered_as_last_state
    (userId : string) (t : Z) (v : SnapshotActions) :
  let source := snapshotChanges (Database.expensesPath userId) in
  burst 500 source → last source = Some (t, v) →
  getUserExpenses' userId = [((t + 500)%Z, v)].
Proof.
  cbv zeta. intros Hb Hlast. unfold Database.getUserExpenses.
  by rewrite (debounce_of_burst timerFirst 500 _ t v Hb Hlast).
Qed.

(** X20.  The final state is never lost: whatever the timing, when the
    stream has emitted anything [getUserExpenses] delivers something, and
    the last batch it delivers serializes to the same text as the last change
    of the stream. *)
Theorem X20_final_state_reaches_subscriber
    (userId : string) (fallback : SnapshotActions) :
  let source := snapshotChanges (Database.expensesPath userId) in
  JSON_stringify (lastValue fallback (getUserExpenses' userId))
  = JSON_stringify (lastValue fallback source)
  ∧ (source ≠ [] → getUserExpenses' userId ≠ [])
  ∧ (source = [] → getUserExpenses' userId = []).
Proof.
  cbv zeta. unfold Database.getUserExpenses. split_and!.
  - rewrite (distinctUntilChanged_lastValue JSON_stringify).
    by rewrite debounce_lastValue.
  - intros Hne. apply (debounce_nonempty timerFirst 500) in Hne.
    by destruct (Rx.debounceTime timerFirst 500 _) as [|[]].
  - by intros ->.
Qed.

End MoreExpenseStream.

Lemma sampleSlowChanges_slow :
  slow 500 [(0, "[]"); (600, "[a]"); (1300, "[a,b]")]%Z
  ∧ Sorted (differ id) [(0, "[]"); (600, "[a]"); (1300, "[a,b]")]%Z.
Proof.
  split; [cbn; lia|]. repeat constructor; unfold differ; cbn; discriminate.
Qed.

Lemma X18_slow_changing_stream_delivered_in_full_witness :
  Database.getUserExpenses id
    (λ _, [(0, "[]"); (600, "[a]"); (1300, "[a,b]")]%Z) (λ _, false) "u1"
  = [(500, "[]"); (1100, "[a]"); (1800, "[a,b]")]%Z.
Proof.
  apply (X18_slow_changing_stream_delivered_in_full id
           (λ _, [(0, "[]"); (600, "[a]"); (1300, "[a,b]")]%Z) (λ _, false) "u1"
           (proj1 sampleSlowChanges_slow) (proj2 sampleSlowChanges_slow)).
Defined.

Lemma X19_burst_delivered_as_last_state_witness :
  Database.getUserExpenses id
    (λ _, [(0, "a"); (100, "b"); (200, "a")]%Z) (λ _, true) "u1"
  = [(700%Z, "a")].
Proof.
  apply (X19_burst_delivered_as_last_state id
           (λ _, [(0, "a"); (100, "b"); (200, "a")]%Z) (λ _, true) "u1" 200%Z "a").
  - cbn. lia.
  - reflexivity.
Defined.

(* --------------------------------------------------------------------- *)
(** *** The further properties at the sample state                        *)
(* --------------------------------------------------------------------- *)


Lemma X2_saveTypes_without_user_witness :
  noUserId signedOutWorld
  ∧ (Eff.exec (Settings.saveTypes (Js.Fulfilled ()))
       signedOutWorld).(settings).(isUpdatingSourceTypes) = false.
Proof.
  split; [exact signedOutWorld_noUserId|].
  apply (X2_saveTypes_without_user signedOutWorld (Js.Fulfilled ())
           signedOutWorld_noUserId).
Defined.



Lemma X5_settings_load_outcome_witness :
  signedInAs sampleWorld "u1"
  ∧ map value
      (Eff.exec (Settings.getAllUserDetails ["Food"] ["Cash"]
                   (Js.Fulfilled
                      (Js.VObject [("categories", stored ["Pets"; "Food"; "Pets"])])))
         sampleWorld).(settings).(categoriesSignal)
    = ["Pets"; "Food"; "Pets"].
Proof.
  split; [exact sampleWorld_signedIn|].
  apply (X5_settings_load_outcome ["Food"] ["Cash"] sampleWorld "u1"
           (Js.VObject [("categories", stored ["Pets"; "Food"; "Pets"])])
           sampleWorld_signedIn).
Defined.

Lemma X6_layout_load_outcome_witness :
  signedInAs sampleWorld "u1"
  ∧ (Eff.exec (Layout.getAllUserDetails ["Food"] ["Cash"]
                 (Js.Fulfilled
                    (Js.VObject [("filesImported", stored ["a.csv"; ""; "b.csv"])])))
       sampleWorld).(expenseDataService).(filesImported)
    = ["a.csv"; "b.csv"].
Proof.
  split; [exact sampleWorld_signedIn|].
  apply (X6_layout_load_outcome ["Food"] ["Cash"] sampleWorld "u1"
           (Js.VObject [("filesImported", stored ["a.csv"; ""; "b.csv"])])
           sampleWorld_signedIn).
Defined.

Lemma X9_save_then_load_round_trip_witness :
  signedInAs sampleWorld "u1"
  ∧ last (Eff.exec (Settings.saveCategories (Js.Fulfilled ()))
            sampleWorld).(database).(calls)
    = Some (Firebase.SetList "users/u1/categories" ["Food"; "Pets"; "Books"])
  ∧ map value
      (Eff.exec (Settings.getAllUserDetails ["Food"] ["Cash"]
                   (Js.Fulfilled
                      (Js.VObject
                         [("categories", readBack ["Food"; "Pets"; "Books"])])))
         (Eff.exec (Settings.saveCategories (Js.Fulfilled ()))
            sampleWorld)).(settings).(categoriesSignal)
    = ["Food"; "Pets"; "Books"].
Proof.
  split; [exact sampleWorld_signedIn|]. split; [reflexivity|].
  apply (X9_save_then_load_round_trip ["Food"] ["Cash"] sampleWorld "u1"
           (Js.VObject [("categories", readBack ["Food"; "Pets"; "Books"])])
           ["Food"; "Pets"; "Books"]
           sampleWorld_signedIn eq_refl eq_refl);
    [discriminate|].
  repeat constructor; discriminate.
Defined.

Lemma X10_settings_load_idempotent_witness :
  signedInAs sampleWorld "u1"
  ∧ (Eff.exec (Settings.getAllUserDetails ["Food"] ["Cash"] (Js.Fulfilled Js.VNull))
       (Eff.exec (Settings.getAllUserDetails ["Food"] ["Cash"] (Js.Fulfilled Js.VNull))
          sampleWorld)).(settings)
    = (Eff.exec (Settings.getAllUserDetails ["Food"] ["Cash"] (Js.Fulfilled Js.VNull))
         sampleWorld).(settings).
Proof.
  split; [exact sampleWorld_signedIn|].
  apply (X10_settings_load_idempotent ["Food"] ["Cash"] sampleWorld "u1" Js.VNull
           sampleWorld_signedIn).
Defined.

Lemma X12_edit_while_save_in_flight_witness :
  signedInAs sampleWorld "u1"
  ∧ (Eff.exec (InFlight.saveCategories_settle (Js.Fulfilled ()))
       (Eff.exec (InFlight.edit [ {| value := "Toys"; removable := true |} ])
          (Eff.exec InFlight.saveCategories_call
             sampleWorld))).(settings).(copyCategoriesSignal)
    = [ {| value := "Toys"; removable := true |} ]
  ∧ (Eff.exec InFlight.saveCategories_call sampleWorld).(database).(calls)
    = [Firebase.SetList "users/u1/categories" ["Food"; "Pets"; "Books"]].
Proof.
  split; [exact sampleWorld_signedIn|].
  pose proof (X12_edit_while_save_in_flight sampleWorld "u1"
                [ {| value := "Toys"; removable := true |} ] (Js.Fulfilled ())
                sampleWorld_signedIn) as H.
  cbv zeta in H. destruct H as (_ & _ & _ & Hcalls & _ & _ & _ & Hcopy & _).
  split; [exact Hcopy|exact Hcalls].
Defined.
